(** * generate_mock_data.py: mock detector data from signatures

    A shallow embedding of [src/generate_mock_data.py].  Python values are
    an inductive type; a text is its UTF-8 encoding, the encoding in which
    the script reads and writes its files; the float64 arithmetic of
    Python and numpy is an interface ([Float64]) whose instance [B64.b64]
    is IEEE binary64 on the primitive floats; the library functions the
    script calls ([ast.literal_eval], [ndjson.load], [json.dumps],
    [np.sin], ...) are the fields of [Host]; and the effects of the script
    (files, the global random generator, standard output, exceptions) are
    threaded through a state-and-error monad. *)

From Stdlib Require Import ZArith QArith Qround Lia String Ascii DecimalString.
From Stdlib Require Floats.PrimFloat Floats.FloatOps Floats.SpecFloat.
From stdpp Require Import base option list gmap strings.

Set Warnings "-register-all".
Local Open Scope string_scope.
Local Open Scope Z_scope.

(** ** Exceptions *)

Inductive exn : Set :=
  | IOError              (* open() on a missing or unwritable path *)
  | UnicodeDecodeError   (* reading a file whose bytes are no UTF-8 text *)
  | UnicodeEncodeError   (* writing or printing a text with a lone surrogate *)
  | JSONDecodeError      (* raised by ndjson.load *)
  | ZeroDivisionError
  | OverflowError
  | TypeError
  | ValueError
  | AttributeError
  | MemoryError.

Inductive result (A : Type) : Type :=
  | Ok (a : A)
  | Raise (e : exn).
Arguments Ok {A} a.
Arguments Raise {A} e.

(** ** float64 arithmetic

    The operations on IEEE doubles that the script relies on, with the
    exceptions Python raises where a conversion has no result. *)

Class Float64 (F : Type) : Type := {
  (** the double of a small int: a constant, an index, a bool *)
  of_Z : Z -> F;
  (** the double that a decimal literal denotes *)
  lit : Q -> F;
  fadd : F -> F -> F;
  fsub : F -> F -> F;
  fmul : F -> F -> F;
  fdiv : F -> F -> F;
  fopp : F -> F;
  fltb : F -> F -> bool;
  feqb : F -> F -> bool;
  (** an int as a double, as [float(n)] and arithmetic with a float
      convert it; [None]: the int is beyond the doubles (OverflowError) *)
  float_of_int : Z -> option F;
  (** [a / b] on two ints, [b] not 0: the quotient, rounded once;
      [None]: the quotient is beyond the doubles (OverflowError) *)
  int_truediv : Z -> Z -> option F;
  (** [n == x] for an int and a float: the values are compared exactly *)
  feqb_int : Z -> F -> bool;
  (** [ceil(x)]; [None] on a NaN and on the infinities *)
  fceil : F -> option Z;
  (** [int(x)]: OverflowError on the infinities, ValueError on a NaN *)
  ftrunc : F -> result Z
}.

(** IEEE binary64, on the primitive floats. *)
Module B64.
Import SpecFloat.

Definition float : Set := PrimFloat.float.

(** The double nearest to [m * 2^e], ties to even; an infinity beyond the
    range. *)
Definition round (m e : Z) : float :=
  FloatOps.SF2Prim (binary_normalize FloatOps.prec FloatOps.emax m e false).

Definition of_int (z : Z) : float := round z 0.

(** The double nearest to [a / b] for [b] other than 0: the quotient is
    taken with 56 bits or more, and a last bit that records a remainder. *)
Definition ratio (a b : Z) : float :=
  let neg := xorb (a <? 0) (b <? 0) in
  let a' := Z.abs a in
  let b' := Z.abs b in
  let k := Z.max 0 (Z.log2 b' + 56 - Z.log2 a') in
  let q := (a' * 2 ^ k) / b' in
  let r := (a' * 2 ^ k) mod b' in
  let m := 2 * q + (if r =? 0 then 0 else 1) in
  round (if neg then - m else m) (- k - 1).

(** [m] and [e] with [x = m * 2^e], for a finite [x]. *)
Definition decode (x : float) : option (Z * Z) :=
  match FloatOps.Prim2SF x with
  | S754_zero _ => Some (0, 0)
  | S754_finite s m e => Some (if s then Zneg m else Zpos m, e)
  | S754_infinity _ | S754_nan => None
  end.

Definition finite (x : float) : option float :=
  match decode x with Some _ => Some x | None => None end.

Definition ceil (x : float) : option Z :=
  match decode x with
  | Some (m, e) =>
      Some (if 0 <=? e then m * 2 ^ e else - ((- m) / 2 ^ (- e)))
  | None => None
  end.

Definition trunc (x : float) : result Z :=
  match FloatOps.Prim2SF x with
  | S754_zero _ => Ok 0
  | S754_finite s m e =>
      let m := if s then Zneg m else Zpos m in
      Ok (if 0 <=? e then m * 2 ^ e else Z.quot m (2 ^ (- e)))
  | S754_infinity _ => Raise OverflowError
  | S754_nan => Raise ValueError
  end.

Definition eqb_int (z : Z) (x : float) : bool :=
  match decode x with
  | Some (m, e) => if 0 <=? e then z =? m * 2 ^ e else z * 2 ^ (- e) =? m
  | None => false
  end.

(** The exact value of a finite double. *)
Definition to_Q (x : float) : option Q :=
  match decode x with
  | Some (m, e) =>
      Some (if 0 <=? e then inject_Z (m * 2 ^ e)
            else Qmake m (Z.to_pos (2 ^ (- e))))
  | None => None
  end.

#[global] Instance b64 : Float64 float := {|
  of_Z := of_int;
  lit := fun q => ratio (Qnum q) (Zpos (Qden q));
  fadd := PrimFloat.add;
  fsub := PrimFloat.sub;
  fmul := PrimFloat.mul;
  fdiv := PrimFloat.div;
  fopp := PrimFloat.opp;
  fltb := PrimFloat.ltb;
  feqb := PrimFloat.eqb;
  float_of_int := fun z => finite (of_int z);
  int_truediv := fun a b => finite (ratio a b);
  feqb_int := eqb_int;
  fceil := ceil;
  ftrunc := trunc
|}.

End B64.

(** ** Python values *)

Section Values.
Context {F : Type} `{Float64 F}.

Inductive pyval : Type :=
  | PyNone
  | PyBool (b : bool)
  | PyInt (z : Z)
  | PyFloat (x : F)
  | PyStr (s : string)
  | PyList (l : list pyval)
  | PyTuple (l : list pyval)
  | PyDict (d : list (string * pyval)).

(** dict.get(k): a dict is kept in insertion order, keys unique. *)
Fixpoint dict_get (k : string) (d : list (string * pyval)) : option pyval :=
  match d with
  | [] => None
  | (k', v) :: d' => if String.eqb k' k then Some v else dict_get k d'
  end.

(** d[k] = v: overwrite in place, or append a new key. *)
Fixpoint dict_set (k : string) (v : pyval) (d : list (string * pyval))
  : list (string * pyval) :=
  match d with
  | [] => [(k, v)]
  | (k', v') :: d' =>
      if String.eqb k' k then (k', v) :: d' else (k', v') :: dict_set k v d'
  end.

(** d.get(k, default) *)
Definition dict_get_default (k : string) (dflt : pyval)
    (d : list (string * pyval)) : pyval :=
  match dict_get k d with Some v => v | None => dflt end.

(** Numbers: an int (bool is a subclass of int) or a float. *)
Definition py_num (v : pyval) : option (Z + F) :=
  match v with
  | PyBool b => Some (inl (Z.b2z b))
  | PyInt z => Some (inl z)
  | PyFloat x => Some (inr x)
  | _ => None
  end.

(** Equality of two numbers as [list.index] and the comparison of
    containers take it: ints and floats compare by their exact values,
    and an object equals itself, which matters for the one NaN object
    that the json decoder returns for every [NaN] it reads. *)
Definition num_eqb (a b : Z + F) : bool :=
  match a, b with
  | inl x, inl y => Z.eqb x y
  | inl x, inr y => feqb_int x y
  | inr x, inl y => feqb_int y x
  | inr x, inr y => feqb x y || (negb (feqb x x) && negb (feqb y y))
  end.

(** [PyObject_RichCompareBool(a, b, Py_EQ)] on values decoded from JSON:
    identity, else the [==] of Python. *)
Fixpoint py_eqb (a b : pyval) {struct a} : bool :=
  match py_num a, py_num b with
  | Some x, Some y => num_eqb x y
  | _, _ =>
      match a, b with
      | PyNone, PyNone => true
      | PyStr s, PyStr t => String.eqb s t
      | PyList l, PyList m | PyTuple l, PyTuple m =>
          (fix seq_eqb (l m : list pyval) : bool :=
             match l, m with
             | [], [] => true
             | x :: l', y :: m' => py_eqb x y && seq_eqb l' m'
             | _, _ => false
             end) l m
      | PyDict d, PyDict e =>
          Nat.eqb (length d) (length e) &&
          (fix items_eqb (d : list (string * pyval)) : bool :=
             match d with
             | [] => true
             | (k, v) :: d' =>
                 match dict_get k e with
                 | Some w => py_eqb v w
                 | None => false
                 end && items_eqb d'
             end) d
      | _, _ => false
      end
  end.

(** Truth value, as tested by [or]. *)
Definition py_truthy (v : pyval) : bool :=
  match v with
  | PyNone => false
  | PyBool b => b
  | PyInt z => negb (Z.eqb z 0)
  | PyFloat x => negb (feqb x (of_Z 0))
  | PyStr s => negb (String.eqb s EmptyString)
  | PyList l | PyTuple l => negb (Nat.eqb (length l) 0)
  | PyDict d => negb (Nat.eqb (length d) 0)
  end.

(** list.index(x) for the element at position [i] of [l]: the first
    position holding an equal value; the element itself matches by
    identity at the latest. *)
Definition list_index (l : list pyval) (i : nat) (x : pyval) : nat :=
  match list_find (fun y => py_eqb y x = true) (take i l) with
  | Some (j, _) => j
  | None => i
  end.

End Values.
Arguments pyval F : clear implicits.

(** ** Text

    A [string] holds the bytes of the UTF-8 encoding of a text. *)

Definition byte_in (lo hi : N) (c : ascii) : bool :=
  ((lo <=? N_of_ascii c) && (N_of_ascii c <=? hi))%N.

Definition byte_is (k : N) (c : ascii) : bool := (N_of_ascii c =? k)%N.

(** The bytes 80..BF, which continue a character. *)
Definition continuation (c : ascii) : bool := byte_in 128 191 c.

(** The strict UTF-8 that Python decodes and encodes: the shortest
    encoding of every code point up to U+10FFFF but the surrogates. *)
Fixpoint valid_utf8 (s : string) : bool :=
  match s with
  | EmptyString => true
  | String c1 s1 =>
      if byte_in 0 127 c1 then valid_utf8 s1
      else
        match s1 with
        | EmptyString => false
        | String c2 s2 =>
            if byte_in 194 223 c1 then continuation c2 && valid_utf8 s2
            else
              match s2 with
              | EmptyString => false
              | String c3 s3 =>
                  if byte_in 224 239 c1 then
                    (if byte_is 224 c1 then byte_in 160 191 c2
                     else if byte_is 237 c1 then byte_in 128 159 c2
                     else continuation c2)
                    && continuation c3 && valid_utf8 s3
                  else
                    match s3 with
                    | EmptyString => false
                    | String c4 s4 =>
                        byte_in 240 244 c1
                        && (if byte_is 240 c1 then byte_in 144 191 c2
                            else if byte_is 244 c1 then byte_in 128 143 c2
                            else continuation c2)
                        && continuation c3 && continuation c4 && valid_utf8 s4
                    end
              end
        end
  end.

(** *** Whitespace and [str.strip]

    The characters for which [str.isspace] holds, by the length of their
    encoding: U+0009..000D, U+001C..0020; U+0085, U+00A0; U+1680,
    U+2000..200A, U+2028, U+2029, U+202F, U+205F, U+3000. *)
Definition space1 (c : ascii) : bool := byte_in 9 13 c || byte_in 28 32 c.

Definition space2 (c1 c2 : ascii) : bool :=
  byte_is 194 c1 && (byte_is 133 c2 || byte_is 160 c2).

Definition space3 (c1 c2 c3 : ascii) : bool :=
  byte_is 225 c1 && byte_is 154 c2 && byte_is 128 c3
  || byte_is 226 c1 && byte_is 128 c2
     && (byte_in 128 138 c3 || byte_in 168 169 c3 || byte_is 175 c3)
  || byte_is 226 c1 && byte_is 129 c2 && byte_is 159 c3
  || byte_is 227 c1 && byte_is 128 c2 && byte_is 128 c3.

(** Reading a text from either end: [q2] and [q3] recognise the
    whitespace characters of two and three bytes in the order of
    reading. *)
Section Whitespace.
Variable q2 : ascii -> ascii -> bool.
Variable q3 : ascii -> ascii -> ascii -> bool.

(** The text after its leading whitespace characters. *)
Fixpoint drop_spaces (s : string) : string :=
  match s with
  | EmptyString => EmptyString
  | String c1 s1 =>
      if space1 c1 then drop_spaces s1
      else
        match s1 with
        | EmptyString => s
        | String c2 s2 =>
            if q2 c1 c2 then drop_spaces s2
            else
              match s2 with
              | EmptyString => s
              | String c3 s3 => if q3 c1 c2 c3 then drop_spaces s3 else s
              end
        end
  end.

(** Whether the first character is whitespace. *)
Definition starts_with_space (s : string) : bool :=
  match s with
  | EmptyString => false
  | String c1 s1 =>
      space1 c1 ||
      match s1 with
      | EmptyString => false
      | String c2 s2 =>
          q2 c1 c2 ||
          match s2 with
          | EmptyString => false
          | String c3 _ => q3 c1 c2 c3
          end
      end
  end.

(** Whether every character is whitespace. *)
Fixpoint only_spaces (s : string) : bool :=
  match s with
  | EmptyString => true
  | String c1 s1 =>
      if space1 c1 then only_spaces s1
      else
        match s1 with
        | EmptyString => false
        | String c2 s2 =>
            if q2 c1 c2 then only_spaces s2
            else
              match s2 with
              | EmptyString => false
              | String c3 s3 => q3 c1 c2 c3 && only_spaces s3
              end
        end
  end.

End Whitespace.

(** The same characters met from the end of the text. *)
Definition space2_back (c2 c1 : ascii) : bool := space2 c1 c2.
Definition space3_back (c3 c2 c1 : ascii) : bool := space3 c1 c2 c3.

Definition lstrip (s : string) : string := drop_spaces space2 space3 s.

Definition rstrip (s : string) : string :=
  String.rev (drop_spaces space2_back space3_back (String.rev s)).

Definition strip (s : string) : string := rstrip (lstrip s).

(** *** [str.split(':', 1)] and the lines of a file *)

(** [None] when [':' not in line]; otherwise the two parts of
    [line.split(':', 1)]. *)
Fixpoint split_colon (line : string) : option (string * string) :=
  match line with
  | EmptyString => None
  | String c s =>
      if Ascii.eqb c ":" then Some (EmptyString, s)
      else match split_colon s with
           | Some (key, val) => Some (String c key, val)
           | None => None
           end
  end.

(** The line feed, written [\n] in the source. *)
Definition LF : string := String "010" EmptyString.

(** Universal newlines: a text-mode file hands out [\r\n] and a lone
    [\r] as [\n]. *)
Fixpoint universal_newlines (s : string) : string :=
  match s with
  | EmptyString => EmptyString
  | String c s' =>
      if Ascii.eqb c "013" then
        match s' with
        | String "010" s'' => String "010" (universal_newlines s'')
        | _ => String "010" (universal_newlines s')
        end
      else String c (universal_newlines s')
  end.

(** The lines of a text, each with its line feed; the last one may lack
    it. *)
Fixpoint split_lines (s : string) : list string :=
  match s with
  | EmptyString => []
  | String c s' =>
      if Ascii.eqb c "010" then LF :: split_lines s'
      else
        match split_lines s' with
        | [] => [String c EmptyString]
        | l :: ls => String c l :: ls
        end
  end.

(** [for line in f] on a file opened in text mode. *)
Definition readlines (content : string) : list string :=
  split_lines (universal_newlines content).

(** [str(n)] for an int. *)
Definition str_of_Z (z : Z) : string := NilZero.string_of_int (Z.to_int z).

(** ** The host library

    Functions of Python, numpy and ndjson that the script calls and does
    not define.  [draw] is one standard-normal draw of numpy's global
    generator, whose state has type [G]. *)

Class Host (F G : Type) : Type := {
  np_sin : F -> F;
  np_exp : F -> F;
  np_pi : F;
  draw : G -> F * G;
  (** the exception, if any, with which numpy fails to allocate an
      array of [n] doubles *)
  np_alloc : nat -> option exn;
  (** [ast.literal_eval]; [None] when it raises *)
  literal_eval : string -> option (pyval F);
  (** [ndjson.load] on the text of a file; [None] is a JSONDecodeError *)
  ndjson_load : string -> option (list (pyval F));
  json_dumps : pyval F -> string;
  (** [float(s)] and [int(s)] on a str; [None] is a ValueError *)
  float_of_str : string -> option F;
  int_of_str : string -> option Z;
  (** [repr] of a float, [str] of a list, tuple or dict *)
  float_repr : F -> string;
  container_repr : pyval F -> string
}.

(** ** The world and the monad of effects *)

Record world (G : Type) : Type := World {
  files : gmap string string;     (* the files that open, and their bytes *)
  writable : string -> bool;      (* paths that open(path, 'w') accepts *)
  rng : G;                        (* state of np.random *)
  stdout : list string            (* lines printed so far *)
}.
Arguments World {G}.
Arguments files {G}.
Arguments writable {G}.
Arguments rng {G}.
Arguments stdout {G}.

Definition M (G A : Type) : Type := world G -> result A * world G.

Definition ret {G A} (a : A) : M G A := fun w => (Ok a, w).

Definition bind {G A B} (m : M G A) (k : A -> M G B) : M G B :=
  fun w =>
    match m w with
    | (Ok a, w') => k a w'
    | (Raise e, w') => (Raise e, w')
    end.

Definition raise {G A} (e : exn) : M G A := fun w => (Raise e, w).

Definition lift {G A} (r : result A) : M G A := fun w => (r, w).

Declare Scope py_scope.
Delimit Scope py_scope with py.
Notation "x <- m ;; k" := (bind m (fun x => k))
  (at level 100, m at next level, right associativity) : py_scope.
Notation "m ;; k" := (bind m (fun _ => k))
  (at level 100, right associativity) : py_scope.

(** ** The script *)

Section Program.
Context {F G : Type} `{!Float64 F} `{!Host F G}.
Local Open Scope py_scope.

(** *** Files and standard output *)

(** [open(path)] and reading the text: the bytes are decoded. *)
Definition open_read (path : string) : M G string :=
  fun w =>
    match files w !! path with
    | Some text =>
        if valid_utf8 text then (Ok text, w) else (Raise UnicodeDecodeError, w)
    | None => (Raise IOError, w)
    end.

(** [open(path, 'w')]: the file is truncated as soon as it is opened. *)
Definition open_write (path : string) : M G unit :=
  fun w =>
    if writable w path
    then (Ok tt, World (<[path := EmptyString]> (files w)) (writable w) (rng w) (stdout w))
    else (Raise IOError, w).

(** [f.write(s)] on a file opened for writing: the text is encoded. *)
Definition f_write (path s : string) : M G unit :=
  fun w =>
    if valid_utf8 s then
      let old := default EmptyString (files w !! path) in
      (Ok tt, World (<[path := old +:+ s]> (files w)) (writable w) (rng w) (stdout w))
    else (Raise UnicodeEncodeError, w).

Definition print (s : string) : M G unit :=
  fun w =>
    if valid_utf8 s
    then (Ok tt, World (files w) (writable w) (rng w) (stdout w ++ [s]))
    else (Raise UnicodeEncodeError, w).

(** *** parse_key_value_am *)

(** One iteration of the loop over the lines. *)
Definition parse_line (meta : list (string * pyval F)) (line : string)
  : list (string * pyval F) :=
  match split_colon line with
  | None => meta
  | Some (key, val) =>
      let key := strip key in
      let val := strip val in
      match literal_eval val with
      | Some v => dict_set key v meta
      | None => dict_set key (PyStr val) meta
      end
  end.

Definition parse_text (content : string) : list (string * pyval F) :=
  fold_left parse_line (readlines content) [].

Definition parse_key_value_am (path : string) : M G (list (string * pyval F)) :=
  content <- open_read path ;;
  ret (parse_text content).

(** *** load_signatures *)

Definition load_signatures (path_ndjson path_am : string)
  : M G (list (pyval F) * list (string * pyval F)) :=
  content <- open_read path_ndjson ;;
  sigs <- lift (match ndjson_load content with
                | Some sigs => Ok sigs
                | None => Raise JSONDecodeError
                end) ;;
  meta <- parse_key_value_am path_am ;;
  ret (sigs, meta).

(** *** synthesize_signal *)

(** The element at [i] of an arange: the start, the start plus the
    step, and from there on [start + i * delta]. *)
Definition arange_item (start step delta : F) (i : nat) : F :=
  match i with
  | O => start
  | S O => fadd start step
  | _ => fadd start (fmul (of_Z (Z.of_nat i)) delta)
  end.

(** [(npy_intp) x] for the double [x = 2^63], the one value that passes
    the range check of arange and is no npy_intp: the conversion of
    x86-64 yields [-2^63]. *)
Definition npy_intp (n : Z) : Z := if n =? 2 ^ 63 then - 2 ^ 63 else n.

(** [np.arange(start, stop, step)] on doubles: [ceil((stop - start)/step)]
    elements, none when that is not positive; ValueError when the length
    is a NaN or beyond npy_intp. *)
Definition np_arange (start stop step : F) : result (list F) :=
  match fceil (fdiv (fsub stop start) step) with
  | None => Raise ValueError
  | Some n =>
      if (n <? - 2 ^ 63) || (2 ^ 63 <? n) then Raise ValueError
      else
        let len := Z.to_nat (npy_intp n) in
        match np_alloc len with
        | Some e => Raise e
        | None =>
            Ok (map (arange_item start step (fsub (fadd start step) start))
                    (seq 0 len))
        end
  end.

(** [np.random.randn(n)]: [n] successive draws. *)
Fixpoint randn (n : nat) : M G (list F) :=
  match n with
  | O => ret []
  | S n' =>
      x <- (fun w => let (x, g) := draw (rng w) in
                     (Ok x, World (files w) (writable w) g (stdout w))) ;;
      xs <- randn n' ;;
      ret (x :: xs)
  end.

(** [1.0 / sampling_rate] with an int divisor. *)
Definition one_over (sampling_rate : Z) : result F :=
  if Z.eqb sampling_rate 0 then Raise ZeroDivisionError
  else match float_of_int sampling_rate with
       | Some x => Ok (fdiv (lit 1%Q) x)
       | None => Raise OverflowError
       end.

(** The duration as numpy takes it for the end of the time axis: an int
    beyond the doubles is refused with the ValueError of arange. *)
Definition np_double (duration : Z + F) : result F :=
  match duration with
  | inl z =>
      match float_of_int z with Some x => Ok x | None => Raise ValueError end
  | inr x => Ok x
  end.

(** [width if width > 0 else duration/8] *)
Definition envelope_std (width duration : F) : F :=
  if fltb (of_Z 0) width then width else fdiv duration (of_Z 8).

(** [duration] is the int or float of the instrument file; once the
    time axis exists, [d] is its double, and [duration/2] and
    [duration/8] are the quotients of [d]. *)
Definition synthesize_signal (freq width amp : F) (sampling_rate : Z)
    (duration : Z + F) : M G (list F * list F) :=
  step <- lift (one_over sampling_rate) ;;
  d <- lift (np_double duration) ;;
  t <- lift (np_arange (of_Z 0) d step) ;;
  let carrier :=
    map (fun x => fmul amp (np_sin x))
        (map (fmul (fmul (fmul (of_Z 2) np_pi) freq)) t) in
  let std := envelope_std width d in
  let env :=
    map (fun x => np_exp (fmul (fopp (lit (1 # 2)%Q)) x))
        (map (fun x => fmul x x)
             (map (fun x => fdiv (fsub x (fdiv d (of_Z 2))) std) t)) in
  let signal := zip_with fmul carrier env in
  z <- randn (length t) ;;
  let noise := map (fmul (fmul (lit (5 # 100)%Q) amp)) z in
  ret (t, zip_with fadd signal noise).

(** *** Conversions used by main *)

(** [float(v)] *)
Definition py_float (v : pyval F) : result F :=
  match v with
  | PyBool b => Ok (of_Z (Z.b2z b))
  | PyInt z =>
      match float_of_int z with Some x => Ok x | None => Raise OverflowError end
  | PyFloat x => Ok x
  | PyStr s =>
      match float_of_str s with Some x => Ok x | None => Raise ValueError end
  | _ => Raise TypeError
  end.

(** [int(v)] *)
Definition py_int (v : pyval F) : result Z :=
  match v with
  | PyBool b => Ok (Z.b2z b)
  | PyInt z => Ok z
  | PyFloat x => ftrunc x
  | PyStr s =>
      match int_of_str s with Some z => Ok z | None => Raise ValueError end
  | _ => Raise TypeError
  end.

(** A value as an operand of [/]: a number, else TypeError. *)
Definition py_number (v : pyval F) : result (Z + F) :=
  match py_num v with Some n => Ok n | None => Raise TypeError end.

(** [n / k] for a number [n] and an int constant [k] other than 0. *)
Definition truediv (n : Z + F) (k : Z) : result F :=
  match n with
  | inl z =>
      match int_truediv z k with Some x => Ok x | None => Raise OverflowError end
  | inr x => Ok (fdiv x (of_Z k))
  end.

(** [str(v)], which is what an f-string field renders. *)
Definition py_str (v : pyval F) : string :=
  match v with
  | PyNone => "None"
  | PyBool true => "True"
  | PyBool false => "False"
  | PyInt z => str_of_Z z
  | PyFloat x => float_repr x
  | PyStr s => s
  | _ => container_repr v
  end.

(** *** main *)

Record args : Type := Args {
  signatures : string;
  signature_meta : string;
  instrument_spec : string;
  output_ndjson : string;
  output_meta : string
}.

(** The f-string of line 72. *)
Definition generated_label (sigs : list (pyval F))
    (sig_meta : list (string * pyval F)) (i : nat) (sig : pyval F) : string :=
  py_str (dict_get_default "TheoryVariant" (PyStr "sig") sig_meta)
  +:+ "_" +:+ str_of_Z (Z.of_nat (list_index sigs i sig) + 1).

(** [sig.get('label') or f"..."] *)
Definition label_of (sigs : list (pyval F))
    (sig_meta : list (string * pyval F)) (i : nat) (sig : pyval F)
    (fields : list (string * pyval F)) : pyval F :=
  let l := dict_get_default "label" PyNone fields in
  if py_truthy l then l else PyStr (generated_label sigs sig_meta i sig).

(** The body of the loop over the signatures; [i] is the position of
    [sig] in [sigs]. *)
Definition injection (sigs : list (pyval F))
    (sig_meta : list (string * pyval F)) (sr : Z) (duration : pyval F)
    (i : nat) (sig : pyval F) : M G (pyval F) :=
  fields <- lift (match sig with
                  | PyDict d => Ok d
                  | _ => Raise AttributeError
                  end) ;;
  let label := label_of sigs sig_meta i sig fields in
  freq <- lift (py_float (dict_get_default "frequency" (PyFloat (lit 0%Q)) fields)) ;;
  n <- lift (py_number duration) ;;
  d8 <- lift (truediv n 8) ;;
  width <- lift (py_float (dict_get_default "width" (PyFloat d8) fields)) ;;
  amplitude <- lift (py_float (dict_get_default "amplitude"
                                 (PyFloat (lit 1%Q)) fields)) ;;
  tts <- synthesize_signal freq width amplitude sr n ;;
  ret (PyDict [("label", label);
               ("sampling_rate", PyInt sr);
               ("time_series", PyList (map PyFloat (snd tts)))]).

Fixpoint for_each {A B : Type} (body : nat -> A -> M G B) (i : nat)
    (l : list A) : M G (list B) :=
  match l with
  | [] => ret []
  | x :: l' =>
      y <- body i x ;;
      ys <- for_each body (S i) l' ;;
      ret (y :: ys)
  end.

(** [writer.writerow(row)] for every row. *)
Fixpoint write_rows (path : string) (rows : list (pyval F)) : M G unit :=
  match rows with
  | [] => ret tt
  | row :: rows' =>
      f_write path (json_dumps row +:+ LF) ;;
      write_rows path rows'
  end.

Definition main (a : args) : M G unit :=
  loaded <- load_signatures (signatures a) (signature_meta a) ;;
  let sigs := fst loaded in
  let sig_meta := snd loaded in
  inst <- parse_key_value_am (instrument_spec a) ;;
  sr <- lift (py_int (dict_get_default "SamplingRate" (PyInt 4096) inst)) ;;
  let duration := dict_get_default "Duration" (PyFloat (lit 1%Q)) inst in
  out_nd <- for_each (injection sigs sig_meta sr duration) 0%nat sigs ;;
  open_write (output_ndjson a) ;;
  write_rows (output_ndjson a) out_nd ;;
  let injection_count := Z.of_nat (length out_nd) in
  open_write (output_meta a) ;;
  f_write (output_meta a) "[ " ;;
  f_write (output_meta a)
    ("InstrumentType = " +:+ py_str (dict_get_default "InstrumentType" PyNone inst) +:+ ", ") ;;
  f_write (output_meta a) ("SamplingRate = " +:+ str_of_Z sr +:+ ", ") ;;
  f_write (output_meta a)
    ("NoiseModel = " +:+ py_str (dict_get_default "NoiseModel" PyNone inst) +:+ ", ") ;;
  f_write (output_meta a) ("InjectionCount = " +:+ str_of_Z injection_count +:+ " ") ;;
  f_write (output_meta a) ("]" +:+ LF) ;;
  print ("Wrote " +:+ str_of_Z injection_count +:+ " mock signals to " +:+ output_ndjson a) ;;
  print ("Wrote summary to " +:+ output_meta a).

End Program.

(** ** A small executable host

    IEEE doubles, polynomial approximations for the transcendental
    functions, a counter for the random generator, arrays of up to 100000
    elements, and as much of the literal and JSON readers as the example
    files below need. *)

Module Demo.

Abbreviation float := B64.float.

Definition sin_demo (x : float) : float :=
  let x3 := fmul (fmul x x) x in
  let x5 := fmul (fmul x3 x) x in
  fadd (fsub x (fdiv x3 (of_Z 6))) (fdiv x5 (of_Z 120)).

Definition exp_demo (x : float) : float :=
  let x2 := fmul x x in
  fadd (fadd (fadd (of_Z 1) x) (fdiv x2 (of_Z 2))) (fdiv (fmul x2 x) (of_Z 6)).

(** 3.141592653589793 *)
Definition pi_demo : float := lit (7074237752028440 # 2251799813685248)%Q.

Definition draw_demo (g : nat) : float * nat :=
  (fdiv (of_Z (Z.of_nat (g mod 5) - 2)) (of_Z 4), S g).

Definition alloc_demo (n : nat) : option exn :=
  if Z.of_nat n <=? 100000 then None else Some MemoryError.

Definition quote : string := String "034" EmptyString.

Definition is_digit (c : ascii) : bool := byte_in 48 57 c.

Fixpoint all_digits (s : string) : bool :=
  match s with
  | EmptyString => true
  | String c s' => is_digit c && all_digits s'
  end.

Fixpoint all_zeros (s : string) : bool :=
  match s with
  | EmptyString => true
  | String c s' => byte_is 48 c && all_zeros s'
  end.

(** A run of decimal digits as a number. *)
Definition digits (s : string) : option Z :=
  match s with
  | EmptyString => None
  | _ =>
      if all_digits s
      then option_map (fun u => Z.of_int (Decimal.Pos u)) (NilZero.uint_of_string s)
      else None
  end.

(** [int(s)] on an optional sign and digits. *)
Definition int_of_str_demo (s : string) : option Z :=
  match s with
  | String "-" s' => option_map Z.opp (digits s')
  | String "+" s' => digits s'
  | _ => digits s
  end.

(** An int literal: digits without a leading zero, unless all are zeros;
    an optional sign before them. *)
Definition int_literal (s : string) : option Z :=
  let plain (s : string) :=
    match s with
    | String "0" _ => if all_zeros s then digits s else None
    | _ => digits s
    end in
  match s with
  | String "-" s' => option_map Z.opp (plain s')
  | String "+" s' => plain s'
  | _ => plain s
  end.

(** The characters between the double quotes of a string literal, with
    the escape for a line feed; any other backslash is left unread. *)
Fixpoint unescape (s : string) : option string :=
  match s with
  | EmptyString => None
  | String "034" EmptyString => Some EmptyString
  | String "034" _ => None
  | String "092" (String "n" s') => option_map (String "010") (unescape s')
  | String "092" _ => None
  | String c s' => option_map (String c) (unescape s')
  end.

(** Of the float literals, only [1e999], which denotes the infinity. *)
Definition literal_eval_demo (s : string) : option (pyval float) :=
  match int_literal s with
  | Some z => Some (PyInt z)
  | None =>
      if String.eqb s "None" then Some PyNone
      else if String.eqb s "1e999" then Some (PyFloat PrimFloat.infinity)
      else
        match s with
        | String "034" s' => option_map PyStr (unescape s')
        | _ => None
        end
  end.

(** A rendering of a double: its integral significand and exponent. *)
Definition float_repr_demo (x : float) : string :=
  match B64.decode x with
  | Some (m, e) => str_of_Z m +:+ "p" +:+ str_of_Z e
  | None => if PrimFloat.eqb x x then (if PrimFloat.ltb x PrimFloat.zero then "-inf" else "inf") else "nan"
  end.

Fixpoint dumps (v : pyval float) : string :=
  match v with
  | PyNone => "null"
  | PyBool true => "true"
  | PyBool false => "false"
  | PyInt z => str_of_Z z
  | PyFloat x => float_repr_demo x
  | PyStr s => quote +:+ s +:+ quote
  | PyList l | PyTuple l =>
      "[" +:+
      (fix items (l : list (pyval float)) : string :=
         match l with
         | [] => EmptyString
         | x :: l' =>
             dumps x +:+
             match l' with [] => EmptyString | _ => ", " +:+ items l' end
         end) l +:+ "]"
  | PyDict d =>
      "{" +:+
      (fix items (d : list (string * pyval float)) : string :=
         match d with
         | [] => EmptyString
         | (k, x) :: d' =>
             quote +:+ k +:+ quote +:+ ": " +:+ dumps x +:+
             match d' with [] => EmptyString | _ => ", " +:+ items d' end
         end) d +:+ "}"
  end.

(** The signature files: two equal records without a label; the single
    labelled record of the end-to-end scenario; a record that is no
    object after a valid one; two different records. *)
Definition twins_text : string :=
  "{" +:+ quote +:+ "frequency" +:+ quote +:+ ": 5}" +:+ LF +:+
  "{" +:+ quote +:+ "frequency" +:+ quote +:+ ": 5}" +:+ LF.

Definition twins : list (pyval float) :=
  [PyDict [("frequency", PyInt 5)]; PyDict [("frequency", PyInt 5)]].

Definition s1_text : string :=
  "{" +:+ quote +:+ "label" +:+ quote +:+ ":" +:+ quote +:+ "s1" +:+ quote +:+
  "," +:+ quote +:+ "frequency" +:+ quote +:+ ":10," +:+
  quote +:+ "width" +:+ quote +:+ ":0.1," +:+
  quote +:+ "amplitude" +:+ quote +:+ ":2.0}" +:+ LF.

Definition s1 : list (pyval float) :=
  [PyDict [("label", PyStr "s1"); ("frequency", PyInt 10);
           ("width", PyFloat (lit (1 # 10)%Q)); ("amplitude", PyFloat (lit 2%Q))]].

Definition mixed_text : string :=
  "{" +:+ quote +:+ "frequency" +:+ quote +:+ ": 5}" +:+ LF +:+ "3" +:+ LF.

Definition mixed : list (pyval float) :=
  [PyDict [("frequency", PyInt 5)]; PyInt 3].

Definition pair_text : string :=
  "{" +:+ quote +:+ "frequency" +:+ quote +:+ ": 5}" +:+ LF +:+
  "{" +:+ quote +:+ "label" +:+ quote +:+ ": " +:+ quote +:+ "x" +:+ quote +:+
  ", " +:+ quote +:+ "frequency" +:+ quote +:+ ": 7}" +:+ LF.

Definition pair : list (pyval float) :=
  [PyDict [("frequency", PyInt 5)];
   PyDict [("label", PyStr "x"); ("frequency", PyInt 7)]].

(** A frequency beyond the doubles: the int 10^400. *)
Definition huge_text : string :=
  "{" +:+ quote +:+ "frequency" +:+ quote +:+ ": " +:+ str_of_Z (10 ^ 400)
  +:+ "}" +:+ LF.

Definition huge : list (pyval float) :=
  [PyDict [("frequency", PyInt (10 ^ 400))]].

Definition ndjson_load_demo (text : string) : option (list (pyval float)) :=
  if String.eqb text twins_text then Some twins
  else if String.eqb text s1_text then Some s1
  else if String.eqb text mixed_text then Some mixed
  else if String.eqb text pair_text then Some pair
  else if String.eqb text huge_text then Some huge
  else if String.eqb text EmptyString then Some []
  else None.

#[global] Instance host : Host float nat := {|
  np_sin := sin_demo;
  np_exp := exp_demo;
  np_pi := pi_demo;
  draw := draw_demo;
  np_alloc := alloc_demo;
  literal_eval := literal_eval_demo;
  ndjson_load := ndjson_load_demo;
  json_dumps := dumps;
  float_of_str := fun s => option_map B64.of_int (int_of_str_demo s);
  int_of_str := int_of_str_demo;
  float_repr := float_repr_demo;
  container_repr := dumps
|}.

Definition spec_text : string :=
  "SamplingRate: 4" +:+ LF +:+ "Duration: 1" +:+ LF.

Definition meta_text : string :=
  "# signature metadata" +:+ LF +:+ "TheoryVariant: Foo" +:+ LF.

(** An instrument type that is a string literal with a line feed in it. *)
Definition two_lines_text : string :=
  "InstrumentType: " +:+ quote +:+ "a\nb" +:+ quote +:+ LF +:+
  "SamplingRate: 4" +:+ LF.

(** The no-break space U+00A0 and the next line U+0085, encoded. *)
Definition NBSP : string := String "194" (String "160" EmptyString).
Definition NEL : string := String "194" (String "133" EmptyString).

Definition example_files : list (string * string) :=
  [("twins.ndjson", twins_text);
   ("s1.ndjson", s1_text);
   ("mixed.ndjson", mixed_text);
   ("pair.ndjson", pair_text);
   ("huge.ndjson", huge_text);
   ("empty.ndjson", EmptyString);
   ("broken.ndjson", "{not json");
   ("latin1.am", "Name: caf" +:+ String "233" LF);
   ("signatures.am", meta_text);
   ("copy.am", meta_text);
   ("instrument_spec.am", spec_text);
   ("two_lines.am", two_lines_text);
   ("zero_rate.am", "SamplingRate: 0" +:+ LF);
   ("bad_rate.am", "SamplingRate: fast" +:+ LF);
   ("infinite_rate.am", "SamplingRate: 1e999" +:+ LF);
   ("bad_duration.am", "Duration: 2s" +:+ LF);
   ("huge_duration.am", "Duration: " +:+ str_of_Z (10 ^ 400) +:+ LF);
   ("plain.am", "InstrumentType: LIGO" +:+ LF)].

(** Every path can be written but [readonly.am]. *)
Definition world0 : world nat :=
  World (list_to_map example_files)
        (fun path => negb (String.eqb path "readonly.am")) 0%nat [].

Definition args_of (sigs spec : string) : args :=
  Args sigs "signatures.am" spec "mock_data.ndjson" "mock_data.am".

Definition args_twins : args := args_of "twins.ndjson" "instrument_spec.am".
Definition args_s1 : args := args_of "s1.ndjson" "instrument_spec.am".
Definition args_missing : args := args_of "missing.ndjson" "instrument_spec.am".
Definition args_broken : args := args_of "broken.ndjson" "instrument_spec.am".

(** A record whose label is the empty string. *)
Definition unlabelled : list (string * pyval float) :=
  [("label", PyStr EmptyString); ("frequency", PyInt 5)].

(** The time axis of the example instrument: 4 samples per second for 1
    second. *)
Definition axis4 : list float :=
  [of_Z 0; lit (1 # 4)%Q; lit (1 # 2)%Q; lit (3 # 4)%Q].

(** A run whose summary file cannot be written. *)
Definition args_readonly : args :=
  Args "s1.ndjson" "signatures.am" "instrument_spec.am" "mock_data.ndjson" "readonly.am".

(** The time axis of the default instrument. *)
Definition axis4096 : list float :=
  map (arange_item (of_Z 0) (fdiv (lit 1%Q) (of_Z 4096))
         (fsub (fadd (of_Z 0) (fdiv (lit 1%Q) (of_Z 4096))) (of_Z 0)))
      (seq 0 4096).

End Demo.

(** ** Vocabulary of the specification *)

Section Vocabulary.
Context {F G : Type} `{!Float64 F} `{!Host F G}.

(** Two worlds that differ at most in the state of the generator. *)
Definition same_io (w w' : world G) : Prop :=
  files w' = files w /\ writable w' = writable w /\ stdout w' = stdout w.

(** Carrier: [amplitude * sin(2 pi * frequency * t)]. *)
Definition carrier_at (amp freq t : F) : F :=
  fmul amp (np_sin (fmul (fmul (fmul (of_Z 2) np_pi) freq) t)).

(** Envelope: [exp(-0.5 * ((t - duration/2) / std)^2)]. *)
Definition envelope_at (duration std t : F) : F :=
  let u := fdiv (fsub t (fdiv duration (of_Z 2))) std in
  np_exp (fmul (fopp (lit (1 # 2)%Q)) (fmul u u)).

(** Noise term: a standard-normal draw [z] scaled by [0.05 * amplitude]. *)
Definition noise_at (amp z : F) : F :=
  fmul (fmul (lit (5 # 100)%Q) amp) z.

(** The value stored for the trimmed text [val]: the literal it denotes,
    or the text itself. *)
Definition value_of (val : string) : pyval F :=
  match literal_eval val with Some v => v | None => PyStr val end.

(** The trimmed key a line contributes, if it contains a colon. *)
Definition line_key (line : string) : option string :=
  match split_colon line with
  | Some (key, _) => Some (strip key)
  | None => None
  end.

(** A field that [float()] accepts when it is present. *)
Definition field_ok (k : string) (fields : list (string * pyval F)) : bool :=
  match dict_get k fields with
  | Some v => match py_float v with Ok _ => true | Raise _ => false end
  | None => true
  end.

(** A valid signature: a JSON object whose frequency, width and
    amplitude, where present, convert to floats. *)
Definition valid_signature (sig : pyval F) : bool :=
  match sig with
  | PyDict fields =>
      field_ok "frequency" fields && field_ok "width" fields
      && field_ok "amplitude" fields
  | _ => false
  end.

(** The text of the output NDJSON file: one line per row. *)
Fixpoint ndjson_text (rows : list (pyval F)) : string :=
  match rows with
  | [] => EmptyString
  | row :: rows' => (json_dumps row +:+ LF) +:+ ndjson_text rows'
  end.

(** The text of the summary file. *)
Definition summary_text (inst : list (string * pyval F)) (sr : Z) (n : nat)
  : string :=
  "[ InstrumentType = " +:+ py_str (dict_get_default "InstrumentType" PyNone inst)
  +:+ ", SamplingRate = " +:+ str_of_Z sr
  +:+ ", NoiseModel = " +:+ py_str (dict_get_default "NoiseModel" PyNone inst)
  +:+ ", InjectionCount = " +:+ str_of_Z (Z.of_nat n) +:+ " ]" +:+ LF.

(** Rows whose lines can be encoded, as those of [json.dumps] can. *)
Definition encodable_rows (rows : list (pyval F)) : Prop :=
  Forall (fun row => valid_utf8 (json_dumps row +:+ LF) = true) rows.

(** The time axis [t] of a sampling rate and a duration can be built:
    [1.0 / sampling_rate] has a value, the duration has a double, and
    [np.arange] returns [t]. *)
Definition time_axis (sr : Z) (duration : Z + F) (t : list F) : Prop :=
  exists step d,
    one_over sr = Ok step /\ np_double duration = Ok d /\
    np_arange (of_Z 0) d step = Ok t.

(** Valid inputs of a run of [main]: the three input files open and
    decode, the signature file is well-formed NDJSON whose records are
    valid signatures, the sampling rate converts to an int [sr], the
    duration is a number [n] that can be divided by 8, the time axis [t]
    of that rate and duration can be built, both output paths can be
    written, and the texts to write and to print can be encoded. *)
Record valid_run (a : args) (w : world G) (sigs : list (pyval F))
    (sig_meta inst : list (string * pyval F)) (sr : Z) (n : Z + F)
    (t : list F) : Prop :=
  ValidRun {
    vr_signatures : exists text,
      files w !! signatures a = Some text /\ valid_utf8 text = true /\
      ndjson_load text = Some sigs;
    vr_signature_meta : exists text,
      files w !! signature_meta a = Some text /\ valid_utf8 text = true /\
      parse_text text = sig_meta;
    vr_instrument_spec : exists text,
      files w !! instrument_spec a = Some text /\ valid_utf8 text = true /\
      parse_text text = inst;
    vr_sampling_rate :
      py_int (dict_get_default "SamplingRate" (PyInt 4096) inst) = Ok sr;
    vr_duration :
      py_number (dict_get_default "Duration" (PyFloat (lit 1%Q)) inst) = Ok n;
    vr_default_width : exists d8, truediv n 8 = Ok d8;
    vr_time_axis : time_axis sr n t;
    vr_valid_signatures : Forall (fun sig => valid_signature sig = true) sigs;
    vr_output_ndjson : writable w (output_ndjson a) = true;
    vr_output_meta : writable w (output_meta a) = true;
    vr_rows : forall out w1,
      for_each (injection sigs sig_meta sr
                  (dict_get_default "Duration" (PyFloat (lit 1%Q)) inst))
               0%nat sigs w = (Ok out, w1) ->
      encodable_rows out;
    vr_instrument_type :
      valid_utf8 (py_str (dict_get_default "InstrumentType" PyNone inst)) = true;
    vr_noise_model :
      valid_utf8 (py_str (dict_get_default "NoiseModel" PyNone inst)) = true;
    vr_print_ndjson : valid_utf8 (output_ndjson a) = true;
    vr_print_meta : valid_utf8 (output_meta a) = true
  }.

(** The rows [out_nd] that a run builds in its loop, with the instrument
    mapping and the sampling rate it has read: the inputs load, and the
    loop over the signatures returns [out_nd]. *)
Definition rows_of (a : args) (w : world G) (out_nd : list (pyval F))
    (inst : list (string * pyval F)) (sr : Z) : Prop :=
  exists loaded w1,
    load_signatures (signatures a) (signature_meta a) w = (Ok loaded, w) /\
    parse_key_value_am (instrument_spec a) w = (Ok inst, w) /\
    py_int (dict_get_default "SamplingRate" (PyInt 4096) inst) = Ok sr /\
    for_each (injection (fst loaded) (snd loaded) sr
                (dict_get_default "Duration" (PyFloat (lit 1%Q)) inst))
             0%nat (fst loaded) w = (Ok out_nd, w1).

(** The keys of a dict, in insertion order. *)
Definition dict_keys (d : list (string * pyval F)) : list string := map fst d.

End Vocabulary.

(** [c in s] *)
Fixpoint occurs (c : ascii) (s : string) : bool :=
  match s with
  | EmptyString => false
  | String c' s' => Ascii.eqb c' c || occurs c s'
  end.

(** [':' in s] *)
Definition contains_colon (s : string) : bool := occurs ":" s.

(** ['\n' in s] *)
Definition contains_line_feed (s : string) : bool := occurs "010" s.

(** A line as [for line in f] yields it: not empty, with no line feed
    before its last character. *)
Fixpoint line_shape (l : string) : bool :=
  match l with
  | EmptyString => false
  | String c EmptyString => true
  | String c l' => negb (Ascii.eqb c "010") && line_shape l'
  end.

Fixpoint ends_with_line_feed (l : string) : bool :=
  match l with
  | EmptyString => false
  | String c EmptyString => Ascii.eqb c "010"
  | String c l' => ends_with_line_feed l'
  end.

(** The lines of a file: each has the shape of a line, and all but the
    last end with a line feed. *)
Fixpoint lines_shape (ls : list string) : bool :=
  match ls with
  | [] => true
  | [l] => line_shape l
  | l :: ls' => line_shape l && ends_with_line_feed l && lines_shape ls'
  end.

(** Text of ASCII characters only. *)
Fixpoint is_ascii (s : string) : bool :=
  match s with
  | EmptyString => true
  | String c s' => byte_in 0 127 c && is_ascii s'
  end.

(** Whether the first, resp. last, character of a text is whitespace,
    and whether all its characters are. *)
Definition head_is_space (s : string) : bool :=
  starts_with_space space2 space3 s.

Definition last_is_space (s : string) : bool :=
  starts_with_space space2_back space3_back (String.rev s).

Definition all_space (s : string) : bool := only_spaces space2 space3 s.

(** Keys that [parse_line] may add are trimmed and free of colons. *)
Definition key_shape (key : string) : Prop :=
  head_is_space key = false /\ last_is_space key = false /\
  contains_colon key = false.

(** [round(x)] of Python: to the nearest integer, ties to the even one. *)
Definition py_round (x : Q) : Z :=
  let f := Qfloor x in
  match ((x - inject_Z f) ?= (1 # 2))%Q with
  | Lt => f
  | Gt => f + 1
  | Eq => if Z.even f then f else f + 1
  end.

(** [round(x)] of a finite double. *)
Definition round_double (x : B64.float) : option Z :=
  option_map py_round (B64.to_Q x).

(** ** Texts *)

Section Texts.

Lemma append_cons (c : ascii) (s t : string) :
  String c s +:+ t = String c (s +:+ t).
Proof. reflexivity. Qed.

Lemma append_nil_r (s : string) : s +:+ EmptyString = s.
Proof.
  induction s as [|c s IH]; [reflexivity|].
  rewrite append_cons. f_equal. exact IH.
Qed.

Lemma append_assoc (s t u : string) : (s +:+ t) +:+ u = s +:+ (t +:+ u).
Proof.
  induction s as [|c s IH]; [reflexivity|].
  rewrite !append_cons. f_equal. exact IH.
Qed.

Lemma string_length_ind (P : string -> Prop) :
  (forall s, (forall t, (String.length t < String.length s)%nat -> P t) -> P s) ->
  forall s, P s.
Proof.
  intros Hstep s.
  assert (H : forall n t, (String.length t < n)%nat -> P t).
  { induction n as [|n IH]; intros t Ht; [lia|].
    apply Hstep. intros u Hu. apply IH. lia. }
  apply (H (S (String.length s))). lia.
Qed.

Lemma rev_app_append (s t : string) :
  String.rev_app s t = String.rev s +:+ t.
Proof.
  revert t. induction s as [|c s IH]; intros t; [reflexivity|].
  unfold String.rev. simpl. rewrite (IH (String c t)), (IH (String c EmptyString)).
  rewrite append_assoc. reflexivity.
Qed.

Lemma rev_cons (c : ascii) (s : string) :
  String.rev (String c s) = String.rev s +:+ String c EmptyString.
Proof. unfold String.rev at 1. simpl. apply rev_app_append. Qed.

Lemma rev_append (s t : string) :
  String.rev (s +:+ t) = String.rev t +:+ String.rev s.
Proof.
  induction s as [|c s IH].
  - change (EmptyString +:+ t) with t.
    change (String.rev EmptyString) with EmptyString.
    rewrite append_nil_r. reflexivity.
  - rewrite append_cons, !rev_cons, IH, append_assoc. reflexivity.
Qed.

Lemma rev_involutive (s : string) : String.rev (String.rev s) = s.
Proof.
  induction s as [|c s IH]; [reflexivity|].
  rewrite rev_cons, rev_append, IH. reflexivity.
Qed.

Lemma occurs_append (c : ascii) (s t : string) :
  occurs c (s +:+ t) = occurs c s || occurs c t.
Proof.
  induction s as [|c' s IH]; [reflexivity|].
  rewrite append_cons. simpl. rewrite IH, orb_assoc. reflexivity.
Qed.

Lemma contains_colon_append (s t : string) :
  contains_colon (s +:+ t) = contains_colon s || contains_colon t.
Proof. apply occurs_append. Qed.

(** *** Encodable text *)

Lemma valid_utf8_app (a b : string) :
  valid_utf8 a = true -> valid_utf8 (a +:+ b) = valid_utf8 b.
Proof.
  induction a as [a IH] using string_length_ind. intros Ha.
  destruct a as [|c1 s1]; [reflexivity|].
  rewrite append_cons. cbn [valid_utf8] in Ha |- *.
  destruct (byte_in 0 127 c1); [apply IH; [simpl; lia|exact Ha]|].
  destruct s1 as [|c2 s2]; [discriminate|].
  rewrite append_cons.
  destruct (byte_in 194 223 c1).
  { apply andb_prop in Ha as [-> Ha]. apply IH; [simpl; lia|exact Ha]. }
  destruct s2 as [|c3 s3]; [discriminate|].
  rewrite append_cons.
  destruct (byte_in 224 239 c1).
  { apply andb_prop in Ha as [-> Ha]. apply IH; [simpl; lia|exact Ha]. }
  destruct s3 as [|c4 s4]; [discriminate|].
  rewrite append_cons.
  apply andb_prop in Ha as [-> Ha]. apply IH; [simpl; lia|exact Ha].
Qed.

Lemma valid_utf8_append (a b : string) :
  valid_utf8 a = true -> valid_utf8 b = true -> valid_utf8 (a +:+ b) = true.
Proof. intros Ha Hb. rewrite valid_utf8_app by exact Ha. exact Hb. Qed.

Lemma valid_utf8_ascii (s : string) : is_ascii s = true -> valid_utf8 s = true.
Proof.
  induction s as [|c s IH]; [reflexivity|]. simpl.
  intros Hs. apply andb_prop in Hs as [-> Hs]. exact (IH Hs).
Qed.

Lemma is_ascii_uint (d : Decimal.uint) : is_ascii (NilEmpty.string_of_uint d) = true.
Proof. induction d; simpl; auto. Qed.

Lemma is_ascii_nilzero (d : Decimal.uint) : is_ascii (NilZero.string_of_uint d) = true.
Proof. destruct d; try reflexivity; apply is_ascii_uint. Qed.

Lemma is_ascii_str_of_Z (z : Z) : is_ascii (str_of_Z z) = true.
Proof.
  unfold str_of_Z, NilZero.string_of_int.
  destruct (Z.to_int z) as [d|d]; [apply is_ascii_nilzero|].
  cbn [is_ascii]. rewrite is_ascii_nilzero. reflexivity.
Qed.

Lemma valid_utf8_str_of_Z (z : Z) : valid_utf8 (str_of_Z z) = true.
Proof. apply valid_utf8_ascii, is_ascii_str_of_Z. Qed.

Lemma no_line_feed_uint (d : Decimal.uint) :
  contains_line_feed (NilEmpty.string_of_uint d) = false.
Proof. induction d; simpl; auto. Qed.

Lemma no_line_feed_nilzero (d : Decimal.uint) :
  contains_line_feed (NilZero.string_of_uint d) = false.
Proof. destruct d; try reflexivity; apply no_line_feed_uint. Qed.

Lemma no_line_feed_str_of_Z (z : Z) : contains_line_feed (str_of_Z z) = false.
Proof.
  unfold str_of_Z, NilZero.string_of_int.
  destruct (Z.to_int z) as [d|d]; [apply no_line_feed_nilzero|].
  pose proof (no_line_feed_nilzero d) as Hd.
  unfold contains_line_feed in *. cbn [occurs]. rewrite Hd. reflexivity.
Qed.

End Texts.

(** ** Whitespace and trimming *)

Section Spaces.
Variable q2 : ascii -> ascii -> bool.
Variable q3 : ascii -> ascii -> ascii -> bool.

Lemma drop_spaces_head (s : string) :
  starts_with_space q2 q3 (drop_spaces q2 q3 s) = false.
Proof.
  induction s as [s IH] using string_length_ind.
  destruct s as [|c1 s1]; [reflexivity|]. cbn [drop_spaces].
  destruct (space1 c1) eqn:E1; [apply IH; simpl; lia|].
  destruct s1 as [|c2 s2]; [cbn [starts_with_space]; rewrite E1; reflexivity|].
  destruct (q2 c1 c2) eqn:E2; [apply IH; simpl; lia|].
  destruct s2 as [|c3 s3]; [cbn [starts_with_space]; rewrite E1, E2; reflexivity|].
  destruct (q3 c1 c2 c3) eqn:E3; [apply IH; simpl; lia|].
  cbn [starts_with_space]. rewrite E1, E2, E3. reflexivity.
Qed.

Lemma drop_spaces_suffix (s : string) :
  exists a, s = a +:+ drop_spaces q2 q3 s /\ only_spaces q2 q3 a = true.
Proof.
  induction s as [s IH] using string_length_ind.
  destruct s as [|c1 s1]; [exists EmptyString; split; reflexivity|].
  cbn [drop_spaces].
  destruct (space1 c1) eqn:E1.
  { destruct (IH s1) as (a & Ha & Hsp); [simpl; lia|].
    exists (String c1 a). split.
    - rewrite append_cons. f_equal. exact Ha.
    - cbn [only_spaces]. rewrite E1. exact Hsp. }
  destruct s1 as [|c2 s2]; [exists EmptyString; split; reflexivity|].
  destruct (q2 c1 c2) eqn:E2.
  { destruct (IH s2) as (a & Ha & Hsp); [simpl; lia|].
    exists (String c1 (String c2 a)). split.
    - rewrite !append_cons. do 2 f_equal. exact Ha.
    - cbn [only_spaces]. rewrite E1, E2. exact Hsp. }
  destruct s2 as [|c3 s3]; [exists EmptyString; split; reflexivity|].
  destruct (q3 c1 c2 c3) eqn:E3; [|exists EmptyString; split; reflexivity].
  destruct (IH s3) as (a & Ha & Hsp); [simpl; lia|].
  exists (String c1 (String c2 (String c3 a))). split.
  - rewrite !append_cons. do 3 f_equal. exact Ha.
  - cbn [only_spaces]. rewrite E1, E2, E3. exact Hsp.
Qed.

Lemma drop_spaces_app (a s : string) :
  only_spaces q2 q3 a = true ->
  drop_spaces q2 q3 (a +:+ s) = drop_spaces q2 q3 s.
Proof.
  induction a as [a IH] using string_length_ind.
  destruct a as [|c1 s1]; [reflexivity|].
  rewrite append_cons. cbn [only_spaces drop_spaces].
  destruct (space1 c1) eqn:E1; [apply IH; simpl; lia|].
  destruct s1 as [|c2 s2]; [discriminate|]. rewrite append_cons.
  destruct (q2 c1 c2) eqn:E2; [apply IH; simpl; lia|].
  destruct s2 as [|c3 s3]; [discriminate|]. rewrite append_cons.
  destruct (q3 c1 c2 c3) eqn:E3; [apply IH; simpl; lia|discriminate].
Qed.

Lemma only_spaces_app (a b : string) :
  only_spaces q2 q3 a = true ->
  only_spaces q2 q3 (a +:+ b) = only_spaces q2 q3 b.
Proof.
  induction a as [a IH] using string_length_ind.
  destruct a as [|c1 s1]; [reflexivity|].
  rewrite append_cons. cbn [only_spaces].
  destruct (space1 c1) eqn:E1; [apply IH; simpl; lia|].
  destruct s1 as [|c2 s2]; [discriminate|]. rewrite append_cons.
  destruct (q2 c1 c2) eqn:E2; [apply IH; simpl; lia|].
  destruct s2 as [|c3 s3]; [discriminate|]. rewrite append_cons.
  destruct (q3 c1 c2 c3) eqn:E3; [apply IH; simpl; lia|discriminate].
Qed.

Lemma drop_spaces_all (s : string) :
  only_spaces q2 q3 s = true -> drop_spaces q2 q3 s = EmptyString.
Proof.
  intros Hs. rewrite <- (append_nil_r s).
  rewrite drop_spaces_app by exact Hs. reflexivity.
Qed.

Lemma drop_spaces_id (s : string) :
  starts_with_space q2 q3 s = false -> drop_spaces q2 q3 s = s.
Proof.
  destruct s as [|c1 s1]; [reflexivity|]. cbn [starts_with_space drop_spaces].
  intros Hs. apply orb_false_elim in Hs as [-> Hs].
  destruct s1 as [|c2 s2]; [reflexivity|].
  apply orb_false_elim in Hs as [-> Hs].
  destruct s2 as [|c3 s3]; [reflexivity|]. rewrite Hs. reflexivity.
Qed.

Lemma starts_with_space_app (r b : string) :
  starts_with_space q2 q3 r = true -> starts_with_space q2 q3 (r +:+ b) = true.
Proof.
  destruct r as [|c1 s1]; [discriminate|].
  rewrite append_cons. cbn [starts_with_space].
  destruct (space1 c1); [reflexivity|]. cbn [orb].
  destruct s1 as [|c2 s2]; [discriminate|]. rewrite append_cons.
  destruct (q2 c1 c2); [reflexivity|]. cbn [orb].
  destruct s2 as [|c3 s3]; [discriminate|]. rewrite append_cons. auto.
Qed.

End Spaces.

Section Trimming.

(** The bytes of the whitespace characters: a character of one byte is
    no continuation byte, and the longer ones are a leading byte
    followed by continuation bytes. *)
Ltac bytes :=
  unfold space2_back, space3_back, space1, space2, space3, continuation,
    byte_in, byte_is in *;
  repeat (progress (rewrite ?andb_true_iff, ?orb_true_iff, ?andb_false_iff,
                      ?orb_false_iff, ?N.eqb_eq, ?N.eqb_neq, ?N.leb_le,
                      ?N.leb_gt in * ));
  lia.

Lemma space1_bytes (c : ascii) : space1 c = true -> continuation c = false.
Proof. bytes. Qed.

Lemma space2_bytes (a b : ascii) :
  space2 a b = true ->
  continuation a = false /\ continuation b = true /\ space1 a = false.
Proof. intros Hs. repeat split; bytes. Qed.

Lemma space3_bytes (a b c : ascii) :
  space3 a b c = true ->
  continuation a = false /\ continuation b = true /\ continuation c = true /\
  space1 a = false /\ space2 a b = false.
Proof. intros Hs. repeat split; bytes. Qed.

Lemma continuation_no_space (c : ascii) :
  continuation c = true ->
  space1 c = false /\ (forall c', space2 c c' = false) /\
  (forall c' c'', space3 c c' c'' = false).
Proof. intros Hc. repeat split; intros; bytes. Qed.

Lemma only_spaces_append q2 q3 (a b : string) :
  only_spaces q2 q3 a = true -> only_spaces q2 q3 b = true ->
  only_spaces q2 q3 (a +:+ b) = true.
Proof. intros Ha Hb. rewrite only_spaces_app by exact Ha. exact Hb. Qed.

(** A whitespace text read backwards is a whitespace text. *)
Lemma all_space_of_back (a : string) :
  only_spaces space2_back space3_back a = true -> all_space (String.rev a) = true.
Proof.
  unfold all_space.
  induction a as [a IH] using string_length_ind.
  destruct a as [|c1 s1]; [reflexivity|]. cbn [only_spaces].
  destruct (space1 c1) eqn:E1.
  { intros Ha. rewrite rev_cons. apply only_spaces_append.
    - apply IH; [simpl; lia|exact Ha].
    - cbn [only_spaces]. rewrite E1. reflexivity. }
  destruct s1 as [|c2 s2]; [discriminate|].
  destruct (space2_back c1 c2) eqn:E2.
  { intros Ha. rewrite !rev_cons, append_assoc. apply only_spaces_append.
    - apply IH; [simpl; lia|exact Ha].
    - unfold space2_back in E2.
      destruct (space2_bytes _ _ E2) as (_ & _ & H1).
      change (String c2 EmptyString +:+ String c1 EmptyString)
        with (String c2 (String c1 EmptyString)).
      cbn [only_spaces]. rewrite H1, E2. reflexivity. }
  destruct s2 as [|c3 s3]; [discriminate|].
  intros Ha. apply andb_prop in Ha as [E3 Ha].
  rewrite !rev_cons, !append_assoc. apply only_spaces_append.
  - apply IH; [simpl; lia|exact Ha].
  - unfold space3_back in E3.
    destruct (space3_bytes _ _ _ E3) as (_ & _ & _ & H1 & H2).
    change (String c3 EmptyString +:+ String c2 EmptyString +:+ String c1 EmptyString)
      with (String c3 (String c2 (String c1 EmptyString))).
    cbn [only_spaces]. rewrite H1, H2, E3. reflexivity.
Qed.

Lemma back_of_all_space (b : string) :
  all_space b = true ->
  only_spaces space2_back space3_back (String.rev b) = true.
Proof.
  unfold all_space.
  induction b as [b IH] using string_length_ind.
  destruct b as [|c1 s1]; [reflexivity|]. cbn [only_spaces].
  destruct (space1 c1) eqn:E1.
  { intros Hb. rewrite rev_cons. apply only_spaces_append.
    - apply IH; [simpl; lia|exact Hb].
    - cbn [only_spaces]. rewrite E1. reflexivity. }
  destruct s1 as [|c2 s2]; [discriminate|].
  destruct (space2 c1 c2) eqn:E2.
  { intros Hb. rewrite !rev_cons, append_assoc. apply only_spaces_append.
    - apply IH; [simpl; lia|exact Hb].
    - destruct (space2_bytes _ _ E2) as (_ & Hc & _).
      destruct (continuation_no_space _ Hc) as (H1 & _).
      change (String c2 EmptyString +:+ String c1 EmptyString)
        with (String c2 (String c1 EmptyString)).
      cbn [only_spaces]. unfold space2_back. rewrite H1, E2. reflexivity. }
  destruct s2 as [|c3 s3]; [discriminate|].
  intros Hb. apply andb_prop in Hb as [E3 Hb].
  rewrite !rev_cons, !append_assoc. apply only_spaces_append.
  - apply IH; [simpl; lia|exact Hb].
  - destruct (space3_bytes _ _ _ E3) as (_ & Hc2 & Hc3 & _).
    destruct (continuation_no_space _ Hc3) as (H1 & _).
    destruct (continuation_no_space _ Hc2) as (_ & H2 & _).
    change (String c3 EmptyString +:+ String c2 EmptyString +:+ String c1 EmptyString)
      with (String c3 (String c2 (String c1 EmptyString))).
    cbn [only_spaces]. unfold space2_back, space3_back.
    rewrite H1, H2, E3. reflexivity.
Qed.

Lemma all_space_append (s t : string) :
  all_space s = true -> all_space (s +:+ t) = all_space t.
Proof. apply only_spaces_app. Qed.

Lemma lstrip_head (s : string) : head_is_space (lstrip s) = false.
Proof. apply drop_spaces_head. Qed.

Lemma lstrip_suffix (s : string) :
  exists a, s = a +:+ lstrip s /\ all_space a = true.
Proof. apply drop_spaces_suffix. Qed.

Lemma rstrip_prefix (s : string) :
  exists b, s = rstrip s +:+ b /\ all_space b = true.
Proof.
  destruct (drop_spaces_suffix space2_back space3_back (String.rev s))
    as (a & Ha & Hsp).
  exists (String.rev a). split.
  - unfold rstrip. rewrite <- rev_append, <- Ha, rev_involutive. reflexivity.
  - apply all_space_of_back, Hsp.
Qed.

Lemma rstrip_last (s : string) : last_is_space (rstrip s) = false.
Proof.
  unfold last_is_space, rstrip. rewrite rev_involutive. apply drop_spaces_head.
Qed.

Lemma rstrip_head (s : string) :
  head_is_space s = false -> head_is_space (rstrip s) = false.
Proof.
  intros Hs. destruct (rstrip_prefix s) as (b & Hb & _).
  destruct (head_is_space (rstrip s)) eqn:Hr; [|reflexivity].
  rewrite Hb in Hs. unfold head_is_space in *.
  rewrite (starts_with_space_app _ _ _ b Hr) in Hs. discriminate.
Qed.

(** What [strip] returns: the text without a whitespace prefix and a
    whitespace suffix, neither starting nor ending in whitespace. *)
Lemma strip_spec (s : string) :
  (exists a b, s = a +:+ strip s +:+ b /\ all_space a = true /\ all_space b = true) /\
  head_is_space (strip s) = false /\ last_is_space (strip s) = false.
Proof.
  split; [|split].
  - destruct (lstrip_suffix s) as (a & Ha & Hsa).
    destruct (rstrip_prefix (lstrip s)) as (b & Hb & Hsb).
    exists a, b. unfold strip. rewrite <- Hb, <- Ha. auto.
  - apply rstrip_head, lstrip_head.
  - apply rstrip_last.
Qed.

Lemma space_not_colon (c : ascii) : space1 c = true -> Ascii.eqb c ":" = false.
Proof.
  intros Hc. destruct (Ascii.eqb_spec c ":") as [->|]; [|reflexivity].
  discriminate.
Qed.

Lemma high_byte_not_colon (c : ascii) :
  byte_in 128 255 c = true -> Ascii.eqb c ":" = false.
Proof.
  intros Hc. destruct (Ascii.eqb_spec c ":") as [->|]; [|reflexivity].
  discriminate.
Qed.

Lemma all_space_no_colon (s : string) : all_space s = true -> contains_colon s = false.
Proof.
  unfold all_space, contains_colon.
  induction s as [s IH] using string_length_ind.
  destruct s as [|c1 s1]; [reflexivity|]. cbn [only_spaces occurs].
  destruct (space1 c1) eqn:E1.
  { intros Hs. rewrite (space_not_colon c1 E1). apply IH; [simpl; lia|exact Hs]. }
  destruct s1 as [|c2 s2]; [discriminate|]. cbn [occurs].
  destruct (space2 c1 c2) eqn:E2.
  { intros Hs. rewrite !high_byte_not_colon by bytes.
    apply IH; [simpl; lia|exact Hs]. }
  destruct s2 as [|c3 s3]; [discriminate|]. cbn [occurs].
  intros Hs. apply andb_prop in Hs as [E3 Hs].
  rewrite !high_byte_not_colon by bytes. apply IH; [simpl; lia|exact Hs].
Qed.

Lemma strip_no_colon (s : string) :
  contains_colon s = false -> contains_colon (strip s) = false.
Proof.
  intros Hs. destruct (strip_spec s) as ((a & b & Hab & _) & _).
  rewrite Hab, !contains_colon_append in Hs.
  apply orb_false_elim in Hs as [_ Hs].
  apply orb_false_elim in Hs as [Hs _]. exact Hs.
Qed.

(** The first byte of a whitespace text is no continuation byte. *)
Lemma all_space_first (c : ascii) (s : string) :
  all_space (String c s) = true -> continuation c = false.
Proof.
  unfold all_space. cbn [only_spaces].
  destruct (space1 c) eqn:E1; [intros _; apply space1_bytes, E1|].
  destruct s as [|c2 s2]; [discriminate|].
  destruct (space2 c c2) eqn:E2; [intros _; apply (space2_bytes _ _ E2)|].
  destruct s2 as [|c3 s3]; [discriminate|].
  intros Hs. apply andb_prop in Hs as [E3 _]. apply (space3_bytes _ _ _ E3).
Qed.

(** No whitespace character begins inside a text that does not start
    with one and ends where a whitespace text begins. *)
Lemma head_is_space_core (m b : string) :
  m <> EmptyString -> head_is_space m = false -> all_space b = true ->
  head_is_space (m +:+ b) = false.
Proof.
  intros Hm Hhead Hb. unfold head_is_space in *.
  destruct m as [|c1 s1]; [contradiction|].
  rewrite append_cons. cbn [starts_with_space] in Hhead |- *.
  apply orb_false_elim in Hhead as [-> Hhead]. cbn [orb].
  destruct s1 as [|c2 s2].
  { change (EmptyString +:+ b) with b.
    destruct b as [|c2 b2]; [reflexivity|].
    pose proof (all_space_first _ _ Hb) as Hc.
    assert (H2 : space2 c1 c2 = false).
    { destruct (space2 c1 c2) eqn:E; [|reflexivity].
      destruct (space2_bytes _ _ E) as (_ & Hc' & _). congruence. }
    rewrite H2. cbn [orb].
    destruct b2 as [|c3 b3]; [reflexivity|].
    destruct (space3 c1 c2 c3) eqn:E; [|reflexivity].
    destruct (space3_bytes _ _ _ E) as (_ & Hc' & _). congruence. }
  rewrite append_cons.
  apply orb_false_elim in Hhead as [-> Hhead]. cbn [orb].
  destruct s2 as [|c3 s3].
  { change (EmptyString +:+ b) with b.
    destruct b as [|c3 b3]; [reflexivity|].
    pose proof (all_space_first _ _ Hb) as Hc.
    destruct (space3 c1 c2 c3) eqn:E; [|reflexivity].
    destruct (space3_bytes _ _ _ E) as (_ & _ & Hc' & _). congruence. }
  rewrite append_cons. exact Hhead.
Qed.

(** [strip] returns the core of a text wrapped in whitespace. *)
Lemma strip_core (a m b : string) :
  all_space a = true -> all_space b = true ->
  head_is_space m = false -> last_is_space m = false ->
  strip (a +:+ m +:+ b) = m.
Proof.
  intros Ha Hb Hhead Hlast. unfold strip, lstrip.
  rewrite (drop_spaces_app _ _ a _ Ha).
  destruct (string_dec m EmptyString) as [->|Hm].
  - change (EmptyString +:+ b) with b.
    rewrite (drop_spaces_all _ _ b Hb). reflexivity.
  - rewrite drop_spaces_id by (apply head_is_space_core; assumption).
    unfold rstrip. rewrite rev_append.
    rewrite drop_spaces_app by (apply back_of_all_space, Hb).
    rewrite drop_spaces_id by exact Hlast. apply rev_involutive.
Qed.

End Trimming.

(** ** The lines of a file *)

Section Lines.

Lemma concat_cons (l : string) (ls : list string) :
  String.concat EmptyString (l :: ls) = l +:+ String.concat EmptyString ls.
Proof. destruct ls; [symmetry; apply append_nil_r|reflexivity]. Qed.

Lemma split_lines_cons (c : ascii) (s : string) :
  split_lines (String c s) =
    if Ascii.eqb c "010" then LF :: split_lines s
    else match split_lines s with
         | [] => [String c EmptyString]
         | l :: ls => String c l :: ls
         end.
Proof. reflexivity. Qed.

(** The lines, put together again, are the text. *)
Lemma split_lines_concat (s : string) :
  String.concat EmptyString (split_lines s) = s.
Proof.
  induction s as [|c s IH]; [reflexivity|]. rewrite split_lines_cons.
  destruct (Ascii.eqb_spec c "010") as [->|Hc].
  - rewrite concat_cons, IH. reflexivity.
  - destruct (split_lines s) as [|l ls].
    + simpl in IH. subst s. reflexivity.
    + rewrite concat_cons in IH |- *. rewrite append_cons, IH. reflexivity.
Qed.

Lemma line_shape_nonempty (l : string) : line_shape l = true -> l <> EmptyString.
Proof. destruct l; [discriminate|discriminate]. Qed.

Lemma lines_shape_head (l : string) (ls : list string) :
  lines_shape (l :: ls) = true -> line_shape l = true.
Proof.
  destruct ls; simpl; [auto|].
  intros Hs. apply andb_prop in Hs as [Hs _]. apply andb_prop in Hs as [Hs _].
  exact Hs.
Qed.

Lemma split_lines_shape (s : string) : lines_shape (split_lines s) = true.
Proof.
  induction s as [|c s IH]; [reflexivity|]. rewrite split_lines_cons.
  destruct (Ascii.eqb c "010") eqn:Hc.
  - destruct (split_lines s) as [|l ls]; [reflexivity|].
    change (lines_shape (LF :: l :: ls))
      with (line_shape LF && ends_with_line_feed LF && lines_shape (l :: ls)).
    rewrite IH. reflexivity.
  - destruct (split_lines s) as [|l ls]; [reflexivity|].
    pose proof (lines_shape_head l ls IH) as Hl.
    assert (Hcl : line_shape (String c l) = true).
    { destruct l as [|c' l']; [discriminate|].
      change (negb (Ascii.eqb c "010") && line_shape (String c' l') = true).
      rewrite Hc, Hl. reflexivity. }
    destruct ls as [|l2 ls]; [exact Hcl|].
    change (line_shape (String c l) && ends_with_line_feed (String c l)
            && lines_shape (l2 :: ls) = true).
    change (line_shape l && ends_with_line_feed l && lines_shape (l2 :: ls) = true) in IH.
    apply andb_prop in IH as [IH Hrest]. apply andb_prop in IH as [_ Hend].
    rewrite Hcl, Hrest.
    destruct l as [|c' l']; [discriminate|].
    change (ends_with_line_feed (String c (String c' l')))
      with (ends_with_line_feed (String c' l')).
    rewrite Hend. reflexivity.
Qed.

Lemma universal_newlines_cons (c : ascii) (s : string) :
  universal_newlines (String c s) =
    if Ascii.eqb c "013" then
      match s with
      | String "010" s' => String "010" (universal_newlines s')
      | _ => String "010" (universal_newlines s)
      end
    else String c (universal_newlines s).
Proof. reflexivity. Qed.

(** No carriage return is left, and a text without one is unchanged. *)
Lemma universal_newlines_no_cr (s : string) :
  occurs "013" (universal_newlines s) = false.
Proof.
  induction s as [s IH] using string_length_ind.
  destruct s as [|c s]; [reflexivity|]. rewrite universal_newlines_cons.
  destruct (Ascii.eqb c "013") eqn:Hc.
  - destruct s as [|c' s']; [reflexivity|].
    destruct (Ascii.eqb_spec c' "010") as [->|Hc'].
    + cbn [occurs]. apply IH. simpl. lia.
    + assert (Hs : match String c' s' with
                   | String "010" s'' => String "010" (universal_newlines s'')
                   | _ => String "010" (universal_newlines (String c' s'))
                   end = String "010" (universal_newlines (String c' s'))).
      { destruct c' as [[] [] [] [] [] [] [] []]; try reflexivity. contradiction. }
      rewrite Hs. cbn [occurs]. apply IH. simpl. lia.
  - cbn [occurs]. rewrite Hc. apply IH. simpl. lia.
Qed.

Lemma universal_newlines_id (s : string) :
  occurs "013" s = false -> universal_newlines s = s.
Proof.
  induction s as [|c s IH]; [reflexivity|]. cbn [occurs].
  intros Hs. apply orb_false_elim in Hs as [Hc Hs].
  rewrite universal_newlines_cons, Hc, (IH Hs). reflexivity.
Qed.

(** Up to its first carriage return a text is unchanged; the carriage
    return becomes a line feed, together with the line feed that follows
    it, if one does. *)
Lemma universal_newlines_app (a s : string) :
  occurs "013" a = false -> universal_newlines (a +:+ s) = a +:+ universal_newlines s.
Proof.
  induction a as [|c a IH]; [reflexivity|]. cbn [occurs].
  intros Ha. apply orb_false_elim in Ha as [Hc Ha].
  rewrite !append_cons, universal_newlines_cons, Hc, (IH Ha). reflexivity.
Qed.

Lemma universal_newlines_cr (s : string) :
  (forall s', s <> String "010" s') ->
  universal_newlines (String "013" s) = String "010" (universal_newlines s).
Proof.
  intros Hs. rewrite universal_newlines_cons. cbn [Ascii.eqb Bool.eqb].
  destruct s as [|c s']; [reflexivity|].
  destruct (Ascii.eqb_spec c "010") as [->|Hc]; [exfalso; exact (Hs s' eq_refl)|].
  destruct c as [[] [] [] [] [] [] [] []]; try reflexivity. contradiction.
Qed.

(** A text that ends with its only line feed is one line. *)
Lemma split_lines_one (s : string) :
  contains_line_feed s = false -> split_lines (s +:+ LF) = [s +:+ LF].
Proof.
  unfold contains_line_feed.
  induction s as [|c s IH]; [reflexivity|]. cbn [occurs].
  intros Hs. apply orb_false_elim in Hs as [Hc Hs].
  rewrite append_cons, split_lines_cons, Hc, (IH Hs). reflexivity.
Qed.

End Lines.

(** ** Reasoning about runs *)

Section Runs.
Context {F G : Type} `{!Float64 F} `{!Host F G}.

Lemma bind_Ok {A B} (m : M G A) (k : A -> M G B) w a w' :
  m w = (Ok a, w') -> bind m k w = k a w'.
Proof. unfold bind. intros ->. reflexivity. Qed.

Lemma bind_Raise {A B} (m : M G A) (k : A -> M G B) w e w' :
  m w = (Raise e, w') -> bind m k w = (Raise e, w').
Proof. unfold bind. intros ->. reflexivity. Qed.

Lemma bind_lift_Ok {A B} (a : A) (k : A -> M G B) w :
  bind (lift (Ok a)) k w = k a w.
Proof. reflexivity. Qed.

Lemma bind_lift_Raise {A B} (e : exn) (k : A -> M G B) (w : world G) :
  bind (lift (Raise e)) k w = (Raise e, w).
Proof. reflexivity. Qed.

Lemma same_io_refl (w : world G) : same_io w w.
Proof. repeat split. Qed.

Lemma same_io_trans (w1 w2 w3 : world G) : same_io w1 w2 -> same_io w2 w3 -> same_io w1 w3.
Proof.
  intros (?&?&?) (?&?&?). repeat split; etrans; eauto.
Qed.

Lemma randn_spec n w :
  exists z w', randn n w = (Ok z, w') /\ length z = n /\ same_io w w'.
Proof.
  revert w. induction n as [|n IH]; intros w.
  - exists [], w. repeat split.
  - cbn [randn]. unfold bind at 1.
    destruct (draw (rng w)) as [x g].
    destruct (IH (World (files w) (writable w) g (stdout w)))
      as (z & w' & Hz & Hlen & Hio).
    erewrite bind_Ok by exact Hz.
    exists (x :: z), w'. split; [reflexivity|].
    split; [simpl; congruence|]. exact Hio.
Qed.

Lemma lookup_map {A B} (f : A -> B) (l : list A) i :
  map f l !! i = f <$> (l !! i).
Proof. apply (list_lookup_fmap f l i). Qed.

End Runs.

(** ** synthesize_signal *)

Section Synthesis.
Context {F G : Type} `{!Float64 F} `{!Host F G}.

(** The run of [synthesize_signal] when the time axis can be built. *)
Lemma synthesize_signal_run (freq width amp : F) (sr : Z) (duration : Z + F)
    (w : world G) (step d : F) (t : list F) :
  one_over sr = Ok step -> np_double duration = Ok d ->
  np_arange (of_Z 0) d step = Ok t ->
  exists z w',
    randn (length t) w = (Ok z, w') /\ length z = length t /\ same_io w w' /\
    synthesize_signal freq width amp sr duration w =
      (Ok (t, zip_with fadd
                (zip_with fmul
                   (map (carrier_at amp freq) t)
                   (map (envelope_at d (envelope_std width d)) t))
                (map (noise_at amp) z)), w').
Proof.
  intros Hstep Hd Ht.
  destruct (randn_spec (length t) w) as (z & w' & Hz & Hlen & Hio).
  exists z, w'. repeat (split; [assumption|]).
  unfold synthesize_signal.
  rewrite Hstep, bind_lift_Ok, Hd, bind_lift_Ok, Ht, bind_lift_Ok. cbn zeta.
  erewrite bind_Ok by exact Hz.
  unfold ret. do 2 f_equal. f_equal.
  rewrite !map_map. reflexivity.
Qed.

(** The ways in which [synthesize_signal] raises: all before a sample
    exists, none depending on frequency, width or amplitude. *)
Lemma synthesize_signal_raises (freq width amp : F) (sr : Z) (duration : Z + F)
    (w w' : world G) (e : exn) :
  synthesize_signal freq width amp sr duration w = (Raise e, w') ->
  w' = w /\
  (one_over sr = Raise e \/
   exists step, one_over sr = Ok step /\
     (np_double duration = Raise e \/
      exists d, np_double duration = Ok d /\
        np_arange (of_Z 0) d step = Raise e)).
Proof.
  destruct (one_over sr) as [step|e1] eqn:Hstep.
  2: { unfold synthesize_signal. rewrite Hstep, bind_lift_Raise.
       intros [= <- <-]. auto. }
  destruct (np_double duration) as [d|e2] eqn:Hd.
  2: { unfold synthesize_signal.
       rewrite Hstep, bind_lift_Ok, Hd, bind_lift_Raise.
       intros [= <- <-]. split; [reflexivity|]. right. exists step.
       split; [reflexivity|]. left. reflexivity. }
  destruct (np_arange (of_Z 0) d step) as [t|e3] eqn:Ht.
  2: { unfold synthesize_signal.
       rewrite Hstep, bind_lift_Ok, Hd, bind_lift_Ok, Ht, bind_lift_Raise.
       intros [= <- <-]. split; [reflexivity|]. right. exists step.
       split; [reflexivity|]. right. exists d. split; [reflexivity|exact Ht]. }
  destruct (synthesize_signal_run freq width amp sr duration w step d t Hstep Hd Ht)
    as (z & w1 & _ & _ & _ & Hrun).
  rewrite Hrun. discriminate.
Qed.

Lemma synthesize_signal_same_io (freq width amp : F) (sr : Z) (duration : Z + F)
    (w : world G) :
  same_io w (snd (synthesize_signal freq width amp sr duration w)).
Proof.
  destruct (synthesize_signal freq width amp sr duration w) as [[r|e] w'] eqn:Hrun.
  - destruct (one_over sr) as [step|e1] eqn:Hstep;
      [|unfold synthesize_signal in Hrun;
        rewrite Hstep, bind_lift_Raise in Hrun; discriminate].
    destruct (np_double duration) as [d|e2] eqn:Hd;
      [|unfold synthesize_signal in Hrun;
        rewrite Hstep, bind_lift_Ok, Hd, bind_lift_Raise in Hrun; discriminate].
    destruct (np_arange (of_Z 0) d step) as [t|e3] eqn:Ht;
      [|unfold synthesize_signal in Hrun;
        rewrite Hstep, bind_lift_Ok, Hd, bind_lift_Ok, Ht, bind_lift_Raise in Hrun;
        discriminate].
    destruct (synthesize_signal_run freq width amp sr duration w step d t Hstep Hd Ht)
      as (z & w1 & _ & _ & Hio & Hrun').
    rewrite Hrun' in Hrun. injection Hrun as _ <-. exact Hio.
  - apply synthesize_signal_raises in Hrun as [-> _]. apply same_io_refl.
Qed.

(** C1: [synthesize_signal] returns exactly when [1.0/sampling_rate] has
    a value and [np.arange] builds the time axis; it then returns that
    axis [t] and samples [out] of the same length, and the sample at
    time [ti] is [amp * sin(2 pi f ti)] times the Gaussian envelope
    [exp(-0.5 * ((ti - d/2) / std)^2)], with [std] resolved from the
    width, plus [0.05 * amp] times the i-th draw of the generator.
    Otherwise it raises what the division or numpy raises, and the
    generator is untouched. *)
Theorem synthesize_signal_elementwise
    (freq width amp : F) (sr : Z) (duration : Z + F) (w : world G) :
  match synthesize_signal freq width amp sr duration w with
  | (Ok (t, out), w') =>
      exists step d z,
        one_over sr = Ok step /\ np_double duration = Ok d /\
        np_arange (of_Z 0) d step = Ok t /\
        randn (length t) w = (Ok z, w') /\
        length z = length t /\ length out = length t /\
        forall i ti, t !! i = Some ti ->
          exists zi, z !! i = Some zi /\
            out !! i =
              let std := if fltb (of_Z 0) width then width else fdiv d (of_Z 8) in
              let u := fdiv (fsub ti (fdiv d (of_Z 2))) std in
              Some (fadd (fmul (fmul amp (np_sin (fmul (fmul (fmul (of_Z 2) np_pi) freq) ti)))
                               (np_exp (fmul (fopp (lit (1 # 2)%Q)) (fmul u u))))
                         (fmul (fmul (lit (5 # 100)%Q) amp) zi))
  | (Raise e, w') =>
      w' = w /\
      (one_over sr = Raise e \/
       exists step, one_over sr = Ok step /\
         (np_double duration = Raise e \/
          exists d, np_double duration = Ok d /\
            np_arange (of_Z 0) d step = Raise e))
  end.
Proof.
  destruct (synthesize_signal freq width amp sr duration w) as [[[t out]|e] w'] eqn:Hrun;
    [|exact (synthesize_signal_raises _ _ _ _ _ _ _ _ Hrun)].
  destruct (one_over sr) as [step|e1] eqn:Hstep;
    [|unfold synthesize_signal in Hrun;
      rewrite Hstep, bind_lift_Raise in Hrun; discriminate].
  destruct (np_double duration) as [d|e2] eqn:Hd;
    [|unfold synthesize_signal in Hrun;
      rewrite Hstep, bind_lift_Ok, Hd, bind_lift_Raise in Hrun; discriminate].
  destruct (np_arange (of_Z 0) d step) as [t'|e3] eqn:Ht;
    [|unfold synthesize_signal in Hrun;
      rewrite Hstep, bind_lift_Ok, Hd, bind_lift_Ok, Ht, bind_lift_Raise in Hrun;
      discriminate].
  destruct (synthesize_signal_run freq width amp sr duration w step d t' Hstep Hd Ht)
    as (z & w1 & Hz & Hlen & _ & Hrun').
  rewrite Hrun' in Hrun. injection Hrun as <- <- <-.
  exists step, d, z. repeat (split; [first [reflexivity|assumption]|]).
  split.
  - rewrite !length_zip_with, !length_map. lia.
  - intros i ti Hti.
    destruct (lookup_lt_is_Some_2 z i) as [zi Hzi].
    { rewrite Hlen. eapply lookup_lt_Some; eauto. }
    exists zi. split; [exact Hzi|].
    rewrite !lookup_zip_with, !lookup_map, Hti, Hzi. reflexivity.
Qed.

Lemma envelope_std_fallback (d : F) :
  envelope_std (fdiv d (of_Z 8)) d = fdiv d (of_Z 8).
Proof. unfold envelope_std. destruct (fltb _ _); reflexivity. Qed.

(** C3, as the code has it: a width that is not above 0 resolves to the
    standard deviation [d/8], so that the run equals the run with width
    [d/8] (same generator state, same result); the call returns whenever
    [1.0/sampling_rate] has a value and the time axis can be built, and
    when it raises, it raises the same for every width; a width above 0
    is its own standard deviation. *)
Theorem width_fallback (freq width amp : F) (sr : Z) (duration : Z + F)
    (w : world G) :
  fltb (of_Z 0) width = false ->
  (forall d, envelope_std width d = fdiv d (of_Z 8)) /\
  (forall d, np_double duration = Ok d ->
     synthesize_signal freq width amp sr duration w =
     synthesize_signal freq (fdiv d (of_Z 8)) amp sr duration w) /\
  (forall step d t,
     one_over sr = Ok step -> np_double duration = Ok d ->
     np_arange (of_Z 0) d step = Ok t ->
     exists out w',
       synthesize_signal freq width amp sr duration w = (Ok (t, out), w')) /\
  (forall e w', synthesize_signal freq width amp sr duration w = (Raise e, w') ->
     forall width', synthesize_signal freq width' amp sr duration w = (Raise e, w')) /\
  (forall width' d, fltb (of_Z 0) width' = true -> envelope_std width' d = width').
Proof.
  intros Hw.
  assert (Hstd : forall d, envelope_std width d = fdiv d (of_Z 8)).
  { intros d. unfold envelope_std. rewrite Hw. reflexivity. }
  split; [exact Hstd|]. split; [|split; [|split]].
  - intros d Hd. unfold synthesize_signal.
    destruct (one_over sr) as [step|e]; [|reflexivity].
    rewrite !bind_lift_Ok, Hd, !bind_lift_Ok.
    destruct (np_arange (of_Z 0) d step) as [t|e]; [|reflexivity].
    rewrite !bind_lift_Ok. cbn zeta.
    rewrite Hstd, envelope_std_fallback. reflexivity.
  - intros step d t Hstep Hd Ht.
    destruct (synthesize_signal_run freq width amp sr duration w step d t Hstep Hd Ht)
      as (z & w' & _ & _ & _ & Hrun).
    eexists _, w'. exact Hrun.
  - intros e w' Hrun width'.
    apply synthesize_signal_raises in Hrun
      as [-> [H1|(step & H1 & [H2|(d & H2 & H3)])]];
      unfold synthesize_signal.
    + rewrite H1. reflexivity.
    + rewrite H1, bind_lift_Ok, H2. reflexivity.
    + rewrite H1, bind_lift_Ok, H2, bind_lift_Ok, H3. reflexivity.
  - intros width' d Hpos. unfold envelope_std. rewrite Hpos. reflexivity.
Qed.

(** C2, as the code has it: for a sampling rate other than 0 with double
    [x] and a duration with double [d], the time axis has
    [n = ceil((d - 0) / (1.0 / x))] points, computed in float64, none
    when [n] is not positive; it starts at 0, its second point is
    [0 + 1/x], and the point at [i] is [0 + i * ((0 + 1/x) - 0)]; the
    returned time series has exactly as many points. *)
Theorem time_axis_points (freq width amp : F) (sr : Z) (duration : Z + F)
    (w : world G) (x d : F) (n : Z) :
  sr <> 0 -> float_of_int sr = Some x -> np_double duration = Ok d ->
  fceil (fdiv (fsub d (of_Z 0)) (fdiv (lit 1%Q) x)) = Some n ->
  - 2 ^ 63 <= n < 2 ^ 63 -> np_alloc (Z.to_nat n) = None ->
  exists t out w',
    synthesize_signal freq width amp sr duration w = (Ok (t, out), w') /\
    length t = Z.to_nat n /\ length out = length t /\
    forall i, (i < Z.to_nat n)%nat ->
      t !! i =
        let step := fdiv (lit 1%Q) x in
        Some (match i with
              | O => of_Z 0
              | S O => fadd (of_Z 0) step
              | _ => fadd (of_Z 0)
                       (fmul (of_Z (Z.of_nat i)) (fsub (fadd (of_Z 0) step) (of_Z 0)))
              end).
Proof.
  intros Hsr Hx Hd Hn Hrange Halloc.
  assert (Hstep : one_over sr = Ok (fdiv (lit 1%Q) x)).
  { unfold one_over. destruct (Z.eqb_spec sr 0); [contradiction|].
    rewrite Hx. reflexivity. }
  assert (Hintp : npy_intp n = n).
  { unfold npy_intp. destruct (Z.eqb_spec n (2 ^ 63)); [lia|reflexivity]. }
  assert (Ht : np_arange (of_Z 0) d (fdiv (lit 1%Q) x) =
               Ok (map (arange_item (of_Z 0) (fdiv (lit 1%Q) x)
                          (fsub (fadd (of_Z 0) (fdiv (lit 1%Q) x)) (of_Z 0)))
                       (seq 0 (Z.to_nat n)))).
  { unfold np_arange. rewrite Hn.
    destruct (Z.ltb_spec n (- 2 ^ 63)); [lia|].
    destruct (Z.ltb_spec (2 ^ 63) n); [lia|].
    cbn [orb]. cbn zeta. rewrite Hintp, Halloc. reflexivity. }
  destruct (synthesize_signal_run freq width amp sr duration w _ d _ Hstep Hd Ht)
    as (z & w' & _ & Hlen & _ & Hrun).
  eexists _, _, w'. split; [exact Hrun|].
  split; [rewrite length_map, length_seq; reflexivity|].
  split; [rewrite !length_zip_with, !length_map in *; lia|].
  intros i Hi. cbn zeta.
  rewrite lookup_map, lookup_seq_lt by exact Hi. reflexivity.
Qed.

End Synthesis.

(** ** parse_key_value_am and load_signatures *)

Section Parser.
Context {F G : Type} `{!Float64 F} `{!Host F G}.

Lemma eqb_string_neq (a b : string) : a <> b -> String.eqb a b = false.
Proof. intros Hne. apply String.eqb_neq. exact Hne. Qed.

Lemma dict_get_set_eq (k : string) (v : pyval F) d :
  dict_get k (dict_set k v d) = Some v.
Proof.
  induction d as [|[k' v'] d IH]; simpl.
  - rewrite String.eqb_refl. reflexivity.
  - destruct (String.eqb k' k) eqn:E; simpl; rewrite E; auto.
Qed.

Lemma dict_get_set_ne (k k' : string) (v : pyval F) d :
  k <> k' -> dict_get k' (dict_set k v d) = dict_get k' d.
Proof.
  intros Hne. induction d as [|[k0 v0] d IH]; simpl.
  - rewrite eqb_string_neq by exact Hne. reflexivity.
  - destruct (String.eqb k0 k) eqn:E; simpl.
    + apply String.eqb_eq in E as ->.
      rewrite eqb_string_neq by exact Hne. reflexivity.
    + destruct (String.eqb k0 k'); auto.
Qed.

Lemma split_colon_None (line : string) :
  split_colon line = None <-> contains_colon line = false.
Proof.
  unfold contains_colon.
  induction line as [|c s IH]; simpl; [tauto|].
  destruct (Ascii.eqb c ":"); simpl; [split; discriminate|].
  destruct (split_colon s) as [[? ?]|]; rewrite <- IH; split;
    (discriminate || reflexivity).
Qed.

(** The split is at the first colon. *)
Lemma split_colon_first (key val : string) :
  contains_colon key = false ->
  split_colon (key +:+ ":" +:+ val) = Some (key, val).
Proof.
  unfold contains_colon.
  induction key as [|c s IH]; intros Hk; [reflexivity|].
  simpl in Hk. apply orb_false_elim in Hk as [Hc Hs].
  rewrite append_cons. simpl. rewrite Hc, (IH Hs). reflexivity.
Qed.

Lemma split_colon_key (line key val : string) :
  split_colon line = Some (key, val) -> contains_colon key = false.
Proof.
  unfold contains_colon.
  revert key val. induction line as [|c s IH]; intros key val; simpl; [discriminate|].
  destruct (Ascii.eqb c ":") eqn:E.
  - intros [= <- <-]. reflexivity.
  - destruct (split_colon s) as [[k v]|]; [|discriminate].
    intros [= <- <-]. simpl. rewrite E. exact (IH k v eq_refl).
Qed.

Lemma parse_line_colon (meta : list (string * pyval F)) line key val :
  split_colon line = Some (key, val) ->
  parse_line meta line = dict_set (strip key) (value_of (strip val)) meta.
Proof.
  intros Hs. unfold parse_line, value_of. rewrite Hs.
  destruct (literal_eval (strip val)); reflexivity.
Qed.

Lemma parse_line_no_colon (meta : list (string * pyval F)) line :
  contains_colon line = false -> parse_line meta line = meta.
Proof.
  intros Hc. apply split_colon_None in Hc.
  unfold parse_line. rewrite Hc. reflexivity.
Qed.

Lemma parse_line_other (meta : list (string * pyval F)) line key :
  line_key line <> Some key ->
  dict_get key (parse_line meta line) = dict_get key meta.
Proof.
  unfold line_key. intros Hk.
  destruct (split_colon line) as [[k v]|] eqn:Hs.
  - rewrite (parse_line_colon _ _ _ _ Hs).
    apply dict_get_set_ne. congruence.
  - unfold parse_line. rewrite Hs. reflexivity.
Qed.

Lemma parse_lines_other (lines : list string) key :
  forall meta : list (string * pyval F),
  (forall l, l ∈ lines -> line_key l <> Some key) ->
  dict_get key (fold_left parse_line lines meta) = dict_get key meta.
Proof.
  induction lines as [|l lines IH]; intros meta Hk; [reflexivity|].
  simpl. rewrite IH.
  - apply parse_line_other, Hk. left.
  - intros l' Hl'. apply Hk. right. exact Hl'.
Qed.

Lemma parse_lines_last (before after : list string) line key val :
  forall meta : list (string * pyval F),
  split_colon line = Some (key, val) ->
  (forall l, l ∈ after -> line_key l <> Some (strip key)) ->
  dict_get (strip key) (fold_left parse_line (before ++ line :: after) meta)
  = Some (value_of (strip val)).
Proof.
  intros meta Hs Hafter.
  rewrite fold_left_app. simpl.
  rewrite parse_lines_other by exact Hafter.
  rewrite (parse_line_colon _ _ _ _ Hs).
  apply dict_get_set_eq.
Qed.

Lemma open_read_run (path : string) (w : world G) :
  open_read path w =
    (match files w !! path with
     | Some text => if valid_utf8 text then Ok text else Raise UnicodeDecodeError
     | None => Raise IOError
     end, w).
Proof.
  unfold open_read. destruct (files w !! path) as [text|]; [|reflexivity].
  destruct (valid_utf8 text); reflexivity.
Qed.

Lemma parse_key_value_am_run (path : string) (w : world G) :
  parse_key_value_am path w =
    (match files w !! path with
     | Some text =>
         if valid_utf8 text then Ok (parse_text text) else Raise UnicodeDecodeError
     | None => Raise IOError
     end, w).
Proof.
  unfold parse_key_value_am, bind. rewrite open_read_run.
  destruct (files w !! path) as [text|]; [|reflexivity].
  destruct (valid_utf8 text); reflexivity.
Qed.

Lemma load_signatures_outcome (p_nd p_am : string) (w : world G) :
  load_signatures p_nd p_am w =
    (match files w !! p_nd with
     | None => Raise IOError
     | Some text =>
         if valid_utf8 text then
           match ndjson_load text with
           | None => Raise JSONDecodeError
           | Some sigs =>
               match files w !! p_am with
               | None => Raise IOError
               | Some text' =>
                   if valid_utf8 text' then Ok (sigs, parse_text text')
                   else Raise UnicodeDecodeError
               end
           end
         else Raise UnicodeDecodeError
     end, w).
Proof.
  unfold load_signatures, bind at 1. rewrite open_read_run.
  destruct (files w !! p_nd) as [text|]; [|reflexivity].
  destruct (valid_utf8 text); [|reflexivity].
  destruct (ndjson_load text) as [sigs|]; [|reflexivity].
  rewrite bind_lift_Ok. unfold bind. rewrite parse_key_value_am_run.
  destruct (files w !! p_am) as [text'|]; [|reflexivity].
  destruct (valid_utf8 text'); reflexivity.
Qed.

(** C6: the lines are those of the text, read with universal newlines
    (a carriage return, with the line feed after it if there is one,
    counts as a line feed); of a line with a colon, the parts before and after its first colon are
    trimmed of all leading and trailing whitespace, and the value is the
    literal the trimmed text denotes or else that text; a line without a
    colon leaves the mapping as it is; a key that no line carries is
    absent; and the value found under a key is that of the last line
    carrying it. *)
Theorem parse_key_value_semantics (content : string) :
  (String.concat EmptyString (readlines content) = universal_newlines content /\
   lines_shape (readlines content) = true /\
   occurs "013" (universal_newlines content) = false /\
   (occurs "013" content = false -> universal_newlines content = content) /\
   (forall a s, occurs "013" a = false ->
      universal_newlines (a +:+ String "013" (String "010" s))
      = a +:+ LF +:+ universal_newlines s) /\
   (forall a s, occurs "013" a = false -> (forall s', s <> String "010" s') ->
      universal_newlines (a +:+ String "013" s)
      = a +:+ LF +:+ universal_newlines s)) /\
  (forall s,
     (exists a b, s = a +:+ strip s +:+ b /\
        all_space a = true /\ all_space b = true) /\
     head_is_space (strip s) = false /\ last_is_space (strip s) = false) /\
  (forall (meta : list (string * pyval F)) key val,
     contains_colon key = false ->
     parse_line meta (key +:+ ":" +:+ val)
     = dict_set (strip key)
         (match literal_eval (strip val) with
          | Some v => v
          | None => PyStr (strip val)
          end) meta) /\
  (forall (meta : list (string * pyval F)) line,
     contains_colon line = false -> parse_line meta line = meta) /\
  (forall key,
     (forall l, l ∈ readlines content -> line_key l <> Some key) ->
     dict_get key (parse_text content) = None) /\
  (forall (before after : list string) line key val,
     readlines content = (before ++ line :: after)%list ->
     split_colon line = Some (key, val) ->
     (forall l, l ∈ after -> line_key l <> Some (strip key)) ->
     dict_get (strip key) (parse_text content)
     = Some (match literal_eval (strip val) with
             | Some v => v
             | None => PyStr (strip val)
             end)).
Proof.
  split; [|split; [|split; [|split; [|split]]]].
  - unfold readlines.
    split; [apply split_lines_concat|].
    split; [apply split_lines_shape|].
    split; [apply universal_newlines_no_cr|].
    split; [apply universal_newlines_id|]. split.
    + intros a s Ha. rewrite universal_newlines_app by exact Ha. reflexivity.
    + intros a s Ha Hs.
      rewrite universal_newlines_app, universal_newlines_cr by assumption.
      reflexivity.
  - apply strip_spec.
  - intros meta key val Hk.
    apply (parse_line_colon meta _ key val), split_colon_first, Hk.
  - apply parse_line_no_colon.
  - intros key Hk. unfold parse_text.
    rewrite parse_lines_other by exact Hk. reflexivity.
  - intros before after line key val Hlines Hs Hafter.
    unfold parse_text. rewrite Hlines.
    apply (parse_lines_last before after line key val [] Hs Hafter).
Qed.

(** C9: the parser reads the world without changing it, and its result
    is determined by the text of the file alone: any two runs on the
    same text, from whatever path and world, give the same mapping. *)
Theorem parse_key_value_am_pure (p1 p2 : string) (w1 w2 : world G) :
  files w1 !! p1 = files w2 !! p2 ->
  fst (parse_key_value_am p1 w1) = fst (parse_key_value_am p2 w2) /\
  snd (parse_key_value_am p1 w1) = w1 /\
  (bind (parse_key_value_am p1) (fun m1 =>
     bind (parse_key_value_am p1) (fun m2 => ret (m1, m2)))) w1
  = (match fst (parse_key_value_am p1 w1) with
     | Ok m => Ok (m, m)
     | Raise e => Raise e
     end, w1).
Proof.
  intros Hsame. rewrite !parse_key_value_am_run. simpl.
  rewrite Hsame. split; [reflexivity|]. split; [reflexivity|].
  unfold bind. rewrite !parse_key_value_am_run.
  destruct (files w1 !! p1) as [text|] eqn:E; rewrite <- ?Hsame;
    [destruct (valid_utf8 text)|]; reflexivity.
Qed.

End Parser.

(** ** main *)

Section Main.
Context {F G : Type} `{!Float64 F} `{!Host F G}.

Lemma field_default (k : string) (dflt : F) (fields : list (string * pyval F)) :
  field_ok k fields = true ->
  exists x, py_float (dict_get_default k (PyFloat dflt) fields) = Ok x.
Proof.
  unfold field_ok, dict_get_default.
  destruct (dict_get k fields) as [v|]; [|eexists; reflexivity].
  destruct (py_float v) as [x|]; [eexists; reflexivity|discriminate].
Qed.

(** One turn of the loop on a valid signature. *)
Lemma injection_run sigs sig_meta (sr : Z) (duration : pyval F) (n : Z + F)
    (d8 : F) (t : list F) (i : nat) (fields : list (string * pyval F))
    (w : world G) :
  py_number duration = Ok n -> truediv n 8 = Ok d8 -> time_axis sr n t ->
  valid_signature (PyDict fields) = true ->
  exists samples w',
    injection sigs sig_meta sr duration i (PyDict fields) w =
      (Ok (PyDict [("label", label_of sigs sig_meta i (PyDict fields) fields);
                   ("sampling_rate", PyInt sr);
                   ("time_series", PyList (map PyFloat samples))]), w') /\
    same_io w w' /\ length samples = length t.
Proof.
  intros Hn Hd8 (step & d & Hstep & Hd & Ht) Hvalid. simpl in Hvalid.
  apply andb_prop in Hvalid as [Hvalid Ha].
  apply andb_prop in Hvalid as [Hf Hw].
  destruct (field_default "frequency" (lit 0%Q) fields Hf) as [freq Hfreq].
  destruct (field_default "width" d8 fields Hw) as [width Hwidth].
  destruct (field_default "amplitude" (lit 1%Q) fields Ha) as [amp Hamp].
  destruct (synthesize_signal_run freq width amp sr n w step d t Hstep Hd Ht)
    as (z & w' & _ & Hlen & Hio & Hrun).
  eexists _, w'. split; [|split; [exact Hio|]].
  - unfold injection. rewrite bind_lift_Ok. cbn zeta.
    rewrite Hfreq, bind_lift_Ok, Hn, bind_lift_Ok, Hd8, bind_lift_Ok,
      Hwidth, bind_lift_Ok, Hamp, bind_lift_Ok.
    erewrite bind_Ok by exact Hrun. reflexivity.
  - cbn [snd]. rewrite !length_zip_with, !length_map. lia.
Qed.

(** The loop over valid signatures. *)
Lemma for_each_injection_run sigs sig_meta (sr : Z) (duration : pyval F)
    (n : Z + F) (d8 : F) (t : list F) (todo : list (pyval F)) :
  py_number duration = Ok n -> truediv n 8 = Ok d8 -> time_axis sr n t ->
  Forall (fun sig => valid_signature sig = true) todo ->
  forall (i : nat) (w : world G),
  exists out w',
    for_each (injection sigs sig_meta sr duration) i todo w = (Ok out, w') /\
    same_io w w' /\ length out = length todo /\
    forall j sig, todo !! j = Some sig ->
      exists fields samples, sig = PyDict fields /\
        out !! j =
          Some (PyDict [("label", label_of sigs sig_meta (i + j) sig fields);
                        ("sampling_rate", PyInt sr);
                        ("time_series", PyList (map PyFloat samples))]) /\
        length samples = length t.
Proof.
  intros Hn Hd8 Ht Hall.
  induction Hall as [|sig todo Hsig _ IH]; intros i w.
  - exists [], w. split; [reflexivity|]. split; [apply same_io_refl|].
    split; [reflexivity|]. intros j sig Hj. discriminate.
  - destruct sig as [| | | | | | |fields]; try discriminate.
    destruct (injection_run sigs sig_meta sr duration n d8 t i fields w Hn Hd8 Ht Hsig)
      as (samples & w1 & Hrun & Hio1 & Hlen1).
    destruct (IH (S i) w1) as (out & w' & Hloop & Hio & Hlen & Hrows).
    eexists (_ :: out), w'. split.
    { cbn [for_each]. erewrite bind_Ok by exact Hrun.
      erewrite bind_Ok by exact Hloop. reflexivity. }
    split; [eapply same_io_trans; eauto|].
    split; [simpl; congruence|].
    intros [|j] sig Hj; simpl in Hj.
    + injection Hj as <-. exists fields, samples.
      rewrite Nat.add_0_r. split; [reflexivity|]. split; [reflexivity|exact Hlen1].
    + destruct (Hrows j sig Hj) as (fields' & samples' & -> & Hout & Hlen').
      exists fields', samples'. split; [reflexivity|].
      replace (i + S j)%nat with (S i + j)%nat by lia. split; assumption.
Qed.

Lemma open_write_run (path : string) (w : world G) :
  writable w path = true ->
  open_write path w =
    (Ok tt, World (<[path := EmptyString]> (files w)) (writable w) (rng w) (stdout w)).
Proof. unfold open_write. intros ->. reflexivity. Qed.

Lemma f_write_cases (path s old : string) fs wr (g : G) so :
  f_write path s (World (<[path := old]> fs) wr g so) =
    if valid_utf8 s
    then (Ok tt, World (<[path := old +:+ s]> fs) wr g so)
    else (Raise UnicodeEncodeError, World (<[path := old]> fs) wr g so).
Proof.
  unfold f_write. destruct (valid_utf8 s); [|reflexivity].
  simpl. rewrite lookup_insert_eq, insert_insert_eq. reflexivity.
Qed.

Lemma f_write_run (path s old : string) fs wr (g : G) so :
  valid_utf8 s = true ->
  f_write path s (World (<[path := old]> fs) wr g so) =
    (Ok tt, World (<[path := old +:+ s]> fs) wr g so).
Proof. intros Hs. rewrite f_write_cases, Hs. reflexivity. Qed.

Lemma print_cases (s : string) (w : world G) :
  print s w =
    if valid_utf8 s
    then (Ok tt, World (files w) (writable w) (rng w) (stdout w ++ [s]))
    else (Raise UnicodeEncodeError, w).
Proof. reflexivity. Qed.

(** Writing the rows: all of them, or up to the first that cannot be
    encoded. *)
Lemma write_rows_outcome (path : string) (rows : list (pyval F)) fs wr (g : G) so :
  forall old,
  match write_rows path rows (World (<[path := old]> fs) wr g so) with
  | (Ok _, w') =>
      w' = World (<[path := old +:+ ndjson_text rows]> fs) wr g so
  | (Raise e, w') =>
      e = UnicodeEncodeError /\ exists text, w' = World (<[path := text]> fs) wr g so
  end.
Proof.
  induction rows as [|row rows IH]; intros old.
  - simpl. rewrite append_nil_r. reflexivity.
  - cbn [write_rows ndjson_text]. unfold bind. rewrite f_write_cases.
    destruct (valid_utf8 (json_dumps row +:+ LF)); [|eauto].
    specialize (IH (old +:+ json_dumps row +:+ LF)).
    destruct (write_rows path rows _) as [[[]|e] w']; [|exact IH].
    rewrite IH, append_assoc. reflexivity.
Qed.

Lemma write_rows_run (path : string) (rows : list (pyval F)) fs wr (g : G) so :
  encodable_rows rows ->
  forall old,
  write_rows path rows (World (<[path := old]> fs) wr g so) =
    (Ok tt, World (<[path := old +:+ ndjson_text rows]> fs) wr g so).
Proof.
  induction 1 as [|row rows Hrow _ IH]; intros old.
  - simpl. rewrite append_nil_r. reflexivity.
  - cbn [write_rows ndjson_text].
    erewrite bind_Ok by (apply f_write_run; exact Hrow).
    rewrite IH, append_assoc. reflexivity.
Qed.

(** The pieces of the summary are encodable when the rendered instrument
    type and noise model are. *)
Lemma valid_utf8_wrap (a s b : string) :
  valid_utf8 a = true -> valid_utf8 s = true -> valid_utf8 b = true ->
  valid_utf8 (a +:+ s +:+ b) = true.
Proof. intros Ha Hs Hb. repeat apply valid_utf8_append; assumption. Qed.

(** [sigs.index(sig)] is the position of [sig] when no earlier record
    equals it, and falls before it otherwise. *)
Lemma list_index_fresh (sigs : list (pyval F)) (i : nat) (x : pyval F) :
  (forall j y, (j < i)%nat -> sigs !! j = Some y -> py_eqb y x = false) ->
  list_index sigs i x = i.
Proof.
  intros Hfresh. unfold list_index.
  destruct (list_find _ _) as [[j y]|] eqn:Hfind; [|reflexivity].
  apply list_find_Some in Hfind as (Hj & Heq & _).
  apply lookup_take_Some in Hj as [Hj Hlt].
  rewrite (Hfresh j y Hlt Hj) in Heq. discriminate.
Qed.

Lemma list_index_earlier (sigs : list (pyval F)) (i j : nat) (x y : pyval F) :
  (j < i)%nat -> sigs !! j = Some y -> py_eqb y x = true ->
  (list_index sigs i x <= j)%nat.
Proof.
  intros Hlt Hj Heq. unfold list_index.
  assert (Hjt : take i sigs !! j = Some y)
    by (apply lookup_take_Some; split; assumption).
  destruct (list_find _ _) as [[j' y']|] eqn:Hfind.
  - apply list_find_Some in Hfind as (_ & _ & Hmin).
    destruct (le_lt_dec j' j) as [Hle|Hgt]; [exact Hle|].
    exfalso. exact (Hmin j y Hjt Hgt Heq).
  - apply list_find_None in Hfind.
    rewrite Forall_forall in Hfind.
    exfalso. apply (Hfind y); [|exact Heq].
    eapply list_elem_of_lookup_2. exact Hjt.
Qed.

Lemma list_index_le (sigs : list (pyval F)) (i : nat) (x : pyval F) :
  (list_index sigs i x <= i)%nat.
Proof.
  unfold list_index.
  destruct (list_find _ _) as [[j y]|] eqn:Hfind; [|lia].
  apply list_find_Some in Hfind as (Hj & _).
  apply lookup_take_Some in Hj as [_ Hlt]. lia.
Qed.

(** The run of [main] from the loaded inputs to the end, given the rows
    of the loop. *)
Lemma main_after_loop (a : args) (w w1 : world G) (loaded : list (pyval F) * list (string * pyval F))
    (inst : list (string * pyval F)) (sr : Z) (out_nd : list (pyval F)) :
  load_signatures (signatures a) (signature_meta a) w = (Ok loaded, w) ->
  parse_key_value_am (instrument_spec a) w = (Ok inst, w) ->
  py_int (dict_get_default "SamplingRate" (PyInt 4096) inst) = Ok sr ->
  for_each (injection (fst loaded) (snd loaded) sr
              (dict_get_default "Duration" (PyFloat (lit 1%Q)) inst))
           0%nat (fst loaded) w = (Ok out_nd, w1) ->
  same_io w w1 ->
  writable w (output_ndjson a) = true -> writable w (output_meta a) = true ->
  encodable_rows out_nd ->
  valid_utf8 (py_str (dict_get_default "InstrumentType" PyNone inst)) = true ->
  valid_utf8 (py_str (dict_get_default "NoiseModel" PyNone inst)) = true ->
  valid_utf8 (output_ndjson a) = true -> valid_utf8 (output_meta a) = true ->
  main a w =
    (Ok tt,
     World (<[output_meta a := summary_text inst sr (length out_nd)]>
              (<[output_ndjson a := ndjson_text out_nd]> (files w)))
           (writable w) (rng w1)
           (stdout w ++
            ["Wrote " +:+ str_of_Z (Z.of_nat (length out_nd))
             +:+ " mock signals to " +:+ output_ndjson a;
             "Wrote summary to " +:+ output_meta a])).
Proof.
  intros Hload Hinst Hsr Hloop (Hfiles & Hwr & Hso) Hw1 Hw2 Hrows Hit Hnm Hp1 Hp2.
  unfold main.
  erewrite bind_Ok by exact Hload. cbn zeta.
  erewrite bind_Ok by exact Hinst.
  rewrite Hsr, bind_lift_Ok.
  erewrite bind_Ok by exact Hloop.
  erewrite bind_Ok by (apply open_write_run; rewrite Hwr; exact Hw1).
  erewrite bind_Ok by (apply write_rows_run; exact Hrows).
  erewrite bind_Ok by (apply open_write_run; simpl; rewrite Hwr; exact Hw2).
  cbn [files writable rng stdout].
  erewrite bind_Ok by (apply f_write_run; reflexivity).
  erewrite bind_Ok
    by (apply f_write_run; apply valid_utf8_wrap; [reflexivity|exact Hit|reflexivity]).
  erewrite bind_Ok
    by (apply f_write_run; apply valid_utf8_wrap;
        [reflexivity|apply valid_utf8_str_of_Z|reflexivity]).
  erewrite bind_Ok
    by (apply f_write_run; apply valid_utf8_wrap; [reflexivity|exact Hnm|reflexivity]).
  erewrite bind_Ok
    by (apply f_write_run; apply valid_utf8_wrap;
        [reflexivity|apply valid_utf8_str_of_Z|reflexivity]).
  erewrite bind_Ok by (apply f_write_run; reflexivity).
  assert (Hline : valid_utf8 ("Wrote " +:+ str_of_Z (Z.of_nat (length out_nd))
                              +:+ " mock signals to " +:+ output_ndjson a) = true).
  { apply valid_utf8_append; [reflexivity|].
    apply valid_utf8_append; [apply valid_utf8_str_of_Z|].
    apply valid_utf8_append; [reflexivity|exact Hp1]. }
  erewrite bind_Ok by (rewrite print_cases, Hline; reflexivity).
  rewrite print_cases, (valid_utf8_append "Wrote summary to " _ eq_refl Hp2).
  cbn [files writable rng stdout].
  rewrite Hfiles, Hwr, Hso, <- !app_assoc.
  unfold summary_text. rewrite !append_assoc. reflexivity.
Qed.

(** The whole run on valid inputs. *)
Lemma main_run (a : args) (w : world G) sigs sig_meta inst (sr : Z)
    (n : Z + F) (t : list F) :
  valid_run a w sigs sig_meta inst sr n t ->
  exists out_nd w1,
    for_each (injection sigs sig_meta sr
                (dict_get_default "Duration" (PyFloat (lit 1%Q)) inst))
             0%nat sigs w = (Ok out_nd, w1) /\
    length out_nd = length sigs /\
    (forall i sig, sigs !! i = Some sig ->
       exists fields samples, sig = PyDict fields /\
         out_nd !! i =
           Some (PyDict [("label", label_of sigs sig_meta i sig fields);
                         ("sampling_rate", PyInt sr);
                         ("time_series", PyList (map PyFloat samples))]) /\
         length samples = length t) /\
    main a w =
      (Ok tt,
       World (<[output_meta a := summary_text inst sr (length out_nd)]>
                (<[output_ndjson a := ndjson_text out_nd]> (files w)))
             (writable w) (rng w1)
             (stdout w ++
              ["Wrote " +:+ str_of_Z (Z.of_nat (length out_nd))
               +:+ " mock signals to " +:+ output_ndjson a;
               "Wrote summary to " +:+ output_meta a])).
Proof.
  intros [(t1 & Hf1 & Hv1 & Hsigs) (t2 & Hf2 & Hv2 & Hmeta) (t3 & Hf3 & Hv3 & Hinst)
          Hsr Hn (d8 & Hd8) Ht Hvalid Hw1 Hw2 Hrows Hit Hnm Hp1 Hp2].
  destruct (for_each_injection_run sigs sig_meta sr _ n d8 t sigs Hn Hd8 Ht Hvalid 0%nat w)
    as (out_nd & w1 & Hloop & Hio & Hlen & Hout).
  exists out_nd, w1. split; [exact Hloop|].
  split; [exact Hlen|]. split; [exact Hout|].
  apply (main_after_loop a w w1 (sigs, sig_meta) inst sr out_nd);
    try assumption.
  - rewrite load_signatures_outcome, Hf1, Hv1, Hsigs, Hf2, Hv2, Hmeta. reflexivity.
  - rewrite parse_key_value_am_run, Hf3, Hv3, Hinst. reflexivity.
  - exact (Hrows out_nd w1 Hloop).
Qed.


Lemma line_shape_append (a b : string) :
  contains_line_feed a = false -> line_shape b = true -> line_shape (a +:+ b) = true.
Proof.
  unfold contains_line_feed.
  induction a as [|c a IH]; intros Ha Hb; [exact Hb|].
  cbn [occurs] in Ha. apply orb_false_elim in Ha as [Hc Ha].
  specialize (IH Ha Hb). rewrite append_cons.
  destruct (a +:+ b) as [|c' r] eqn:E; [discriminate|].
  change (negb (Ascii.eqb c "010") && line_shape (String c' r) = true).
  rewrite Hc, IH. reflexivity.
Qed.

Lemma cons_append_nonempty (c : ascii) (a b : string) :
  String c a +:+ b <> EmptyString.
Proof. rewrite append_cons. discriminate. Qed.

Lemma append_nonempty (a b : string) : b <> EmptyString -> a +:+ b <> EmptyString.
Proof. destruct a as [|c a]; [auto|]. intros _. apply cons_append_nonempty. Qed.

(** A line feed inside a text ends a line before the end of the text. *)
Lemma line_shape_prefix (a b : string) :
  line_shape (a +:+ b) = true -> b <> EmptyString ->
  contains_line_feed a = false /\ line_shape b = true.
Proof.
  unfold contains_line_feed.
  induction a as [|c a IH]; intros Hs Hb; [auto|].
  rewrite append_cons in Hs.
  destruct (a +:+ b) as [|c' r] eqn:E.
  { exfalso. exact (append_nonempty a b Hb E). }
  change (negb (Ascii.eqb c "010") && line_shape (String c' r) = true) in Hs.
  apply andb_prop in Hs as [Hc Hs]. apply negb_true_iff in Hc.
  destruct (IH Hs Hb) as [Ha Hb']. cbn [occurs]. rewrite Hc, Ha. auto.
Qed.

Lemma split_lines_line (s : string) : line_shape s = true -> split_lines s = [s].
Proof.
  induction s as [|c s IH]; [discriminate|].
  destruct s as [|c' s'].
  - intros _. simpl. destruct (Ascii.eqb c "010") eqn:E; [|reflexivity].
    apply Ascii.eqb_eq in E as ->. reflexivity.
  - intros Hs.
    change (negb (Ascii.eqb c "010") && line_shape (String c' s') = true) in Hs.
    apply andb_prop in Hs as [Hc Hs]. apply negb_true_iff in Hc.
    rewrite split_lines_cons, Hc, (IH Hs). reflexivity.
Qed.


(** C7, as the code has it: a signature file that does not open raises
    IOError and one that is not valid NDJSON raises JSONDecodeError, in
    [load_signatures] and uncaught through [main]; the key-value parser
    returns a mapping for every file that opens and decodes, skipping a
    line without a colon and storing the trimmed text of a value that is
    no literal; it raises only for a file that does not open (IOError)
    or whose bytes are no text (UnicodeDecodeError). *)
Theorem loader_strict_parser_lenient (a : args) (w : world G) :
  (files w !! signatures a = None ->
   load_signatures (signatures a) (signature_meta a) w = (Raise IOError, w) /\
   main a w = (Raise IOError, w)) /\
  (forall text,
     files w !! signatures a = Some text -> valid_utf8 text = true ->
     ndjson_load text = None ->
     load_signatures (signatures a) (signature_meta a) w
       = (Raise JSONDecodeError, w) /\
     main a w = (Raise JSONDecodeError, w)) /\
  (forall path text,
     files w !! path = Some text -> valid_utf8 text = true ->
     parse_key_value_am path w = (Ok (parse_text text), w)) /\
  (forall path e w',
     parse_key_value_am path w = (Raise e, w') ->
     w' = w /\
     (files w !! path = None /\ e = IOError \/
      exists text, files w !! path = Some text /\ valid_utf8 text = false /\
        e = UnicodeDecodeError)) /\
  (forall (meta : list (string * pyval F)) line,
     contains_colon line = false -> parse_line meta line = meta) /\
  (forall (meta : list (string * pyval F)) key val,
     contains_colon key = false -> literal_eval (strip val) = None ->
     parse_line meta (key +:+ ":" +:+ val)
     = dict_set (strip key) (PyStr (strip val)) meta).
Proof.
  split; [|split; [|split; [|split; [|split]]]].
  - intros Hnone.
    assert (Hload : load_signatures (signatures a) (signature_meta a) w
                    = (Raise IOError, w))
      by (rewrite load_signatures_outcome, Hnone; reflexivity).
    split; [exact Hload|].
    unfold main. erewrite bind_Raise by exact Hload. reflexivity.
  - intros text Hsome Hvalid Hbad.
    assert (Hload : load_signatures (signatures a) (signature_meta a) w
                    = (Raise JSONDecodeError, w))
      by (rewrite load_signatures_outcome, Hsome, Hvalid, Hbad; reflexivity).
    split; [exact Hload|].
    unfold main. erewrite bind_Raise by exact Hload. reflexivity.
  - intros path text Hsome Hvalid.
    rewrite parse_key_value_am_run, Hsome, Hvalid. reflexivity.
  - intros path e w'. rewrite parse_key_value_am_run.
    destruct (files w !! path) as [text|].
    + destruct (valid_utf8 text) eqn:Hvalid; [discriminate|].
      intros [= <- <-]. split; [reflexivity|]. right. exists text. auto.
    + intros [= <- <-]. auto.
  - apply parse_line_no_colon.
  - intros meta key val Hk Hlit.
    rewrite (parse_line_colon meta _ key val) by (apply split_colon_first, Hk).
    unfold value_of. rewrite Hlit. reflexivity.
Qed.


End Main.

(** ** The script on the example files *)

Module Examples.
Import Demo.

Example readlines_universal_newlines :
  readlines ("a:1" +:+ String "013" (String "010" "b") +:+ String "013" "c")
  = ["a:1" +:+ LF; "b" +:+ LF; "c"].
Proof. reflexivity. Qed.

Example strip_both_sides : strip (String "009" " a b  " +:+ LF) = "a b".
Proof. reflexivity. Qed.

(** U+00A0, U+0085 and U+2003 are trimmed like the ASCII blanks. *)
Example strip_unicode :
  strip (NEL +:+ " K" +:+ NBSP +:+ String "226" (String "128" (String "131" LF)))
  = "K".
Proof. reflexivity. Qed.

Example split_colon_first_only :
  split_colon "Range: 1:2" = Some ("Range", " 1:2").
Proof. reflexivity. Qed.

Example parse_text_last_wins :
  parse_text ("K: 1" +:+ LF +:+ "no colon" +:+ LF +:+ " K :x" +:+ LF)
  = [("K", PyStr "x" : pyval float)].
Proof. reflexivity. Qed.

(** A text with a leading zero is no literal: the text is stored. *)
Example leading_zero_is_text :
  parse_text ("K: 007" +:+ LF) = [("K", PyStr "007" : pyval float)].
Proof. reflexivity. Qed.

(** C1 at the signature of the end-to-end scenario, 4 samples. *)
Lemma synthesize_signal_elementwise_witness :
  match synthesize_signal (lit 10%Q) (lit (1 # 10)%Q) (lit 2%Q) 4 (inl 1) world0 with
  | (Ok (t, out), w') =>
      exists step d z,
        one_over 4 = Ok step /\ np_double (inl 1) = Ok d /\
        np_arange (of_Z 0) d step = Ok t /\
        randn (length t) world0 = (Ok z, w') /\
        length z = length t /\ length out = length t /\
        forall i ti, t !! i = Some ti ->
          exists zi, z !! i = Some zi /\
            out !! i =
              let std := if fltb (of_Z 0) (lit (1 # 10)%Q) then lit (1 # 10)%Q
                         else fdiv d (of_Z 8) in
              let u := fdiv (fsub ti (fdiv d (of_Z 2))) std in
              Some (fadd (fmul (fmul (lit 2%Q)
                                  (sin_demo (fmul (fmul (fmul (of_Z 2) pi_demo) (lit 10%Q)) ti)))
                               (exp_demo (fmul (fopp (lit (1 # 2)%Q)) (fmul u u))))
                         (fmul (fmul (lit (5 # 100)%Q) (lit 2%Q)) zi))
  | (Raise e, w') =>
      w' = world0 /\
      (one_over 4 = Raise e \/
       exists step, one_over 4 = Ok step /\
         (np_double (inl 1) = Raise e \/
          exists d, np_double (inl 1) = Ok d /\
            np_arange (of_Z 0) d step = Raise e))
  end.
Proof.
  exact (synthesize_signal_elementwise
           (lit 10%Q) (lit (1 # 10)%Q) (lit 2%Q) 4 (inl 1) world0).
Defined.

(** C2: three runs in binary64.  With duration 1.125 and sampling rate 2
    the time axis is 0, 0.5, 1.0: three points, where
    [round(1.125 * 2) = round(2.25) = 2].  With duration 1.0 and
    sampling rate 49 it has 50 points, where [round(49.0) = 49].  With
    duration 5.0 and sampling rate 49 its last point is 5.0, the
    duration itself. *)
Lemma round_count_counterexample :
  (exists t out w',
     synthesize_signal (lit 1%Q) (lit (1 # 10)%Q) (lit 1%Q) 2 (inr (lit (9 # 8)%Q)) world0
       = (Ok (t, out), w') /\
     length out = 3%nat /\
     round_double (fmul (lit (9 # 8)%Q) (of_Z 2)) = Some 2) /\
  (exists t out w',
     synthesize_signal (lit 1%Q) (lit (1 # 10)%Q) (lit 1%Q) 49 (inr (lit 1%Q)) world0
       = (Ok (t, out), w') /\
     length out = 50%nat /\
     round_double (fmul (lit 1%Q) (of_Z 49)) = Some 49) /\
  (exists t out w' tn,
     synthesize_signal (lit 1%Q) (lit (1 # 10)%Q) (lit 1%Q) 49 (inr (lit 5%Q)) world0
       = (Ok (t, out), w') /\
     last t = Some tn /\ fltb tn (lit 5%Q) = false /\ feqb tn (lit 5%Q) = true).
Proof.
  split; [|split].
  - eexists _, _, _. split; [vm_compute; reflexivity|].
    split; vm_compute; reflexivity.
  - eexists _, _, _. split; [vm_compute; reflexivity|].
    split; vm_compute; reflexivity.
  - eexists _, _, _, _. split; [vm_compute; reflexivity|].
    split; [vm_compute; reflexivity|]. split; vm_compute; reflexivity.
Qed.

Lemma time_axis_points_witness :
  exists t out w',
    synthesize_signal (lit 1%Q) (lit (1 # 10)%Q) (lit 1%Q) 2 (inr (lit (9 # 8)%Q)) world0
      = (Ok (t, out), w') /\
    length t = Z.to_nat 3 /\ length out = length t /\
    forall i, (i < Z.to_nat 3)%nat ->
      t !! i =
        let step := fdiv (lit 1%Q) (of_Z 2) in
        Some (match i with
              | O => of_Z 0
              | S O => fadd (of_Z 0) step
              | _ => fadd (of_Z 0)
                       (fmul (of_Z (Z.of_nat i)) (fsub (fadd (of_Z 0) step) (of_Z 0)))
              end).
Proof.
  apply (time_axis_points (lit 1%Q) (lit (1 # 10)%Q) (lit 1%Q) 2
           (inr (lit (9 # 8)%Q)) world0 (of_Z 2) (lit (9 # 8)%Q) 3).
  - discriminate.
  - vm_compute. reflexivity.
  - reflexivity.
  - vm_compute. reflexivity.
  - lia.
  - reflexivity.
Defined.

(** C3: with width 0 the call raises for the sampling rate 0, for a
    sampling rate beyond the doubles, and for an infinite duration. *)
Lemma zero_sampling_rate_raises :
  fltb (of_Z 0) (lit 0%Q) = false /\
  synthesize_signal (lit 1%Q) (lit 0%Q) (lit 1%Q) 0 (inr (lit 1%Q)) world0
    = (Raise ZeroDivisionError, world0) /\
  synthesize_signal (lit 1%Q) (lit 0%Q) (lit 1%Q) (10 ^ 400) (inr (lit 1%Q)) world0
    = (Raise OverflowError, world0) /\
  synthesize_signal (lit 1%Q) (lit 0%Q) (lit 1%Q) 4
      (inr (fdiv (of_Z 1) (of_Z 0))) world0
    = (Raise ValueError, world0).
Proof. repeat split; vm_compute; reflexivity. Qed.

Lemma width_fallback_witness :
  fltb (of_Z 0) (lit 0%Q) = false /\
  (forall d, envelope_std (lit 0%Q) d = fdiv d (of_Z 8)) /\
  (forall d, np_double (inr (lit 1%Q)) = Ok d ->
     synthesize_signal (lit 1%Q) (lit 0%Q) (lit 1%Q) 4 (inr (lit 1%Q)) world0 =
     synthesize_signal (lit 1%Q) (fdiv d (of_Z 8)) (lit 1%Q) 4 (inr (lit 1%Q)) world0) /\
  (forall step d t,
     one_over 4 = Ok step -> np_double (inr (lit 1%Q)) = Ok d ->
     np_arange (of_Z 0) d step = Ok t ->
     exists out w',
       synthesize_signal (lit 1%Q) (lit 0%Q) (lit 1%Q) 4 (inr (lit 1%Q)) world0
         = (Ok (t, out), w')) /\
  (forall e w',
     synthesize_signal (lit 1%Q) (lit 0%Q) (lit 1%Q) 4 (inr (lit 1%Q)) world0
       = (Raise e, w') ->
     forall width',
       synthesize_signal (lit 1%Q) width' (lit 1%Q) 4 (inr (lit 1%Q)) world0
         = (Raise e, w')) /\
  (forall width' d, fltb (of_Z 0) width' = true -> envelope_std width' d = width').
Proof.
  split; [vm_compute; reflexivity|].
  apply (width_fallback (lit 1%Q) (lit 0%Q) (lit 1%Q) 4 (inr (lit 1%Q)) world0).
  vm_compute. reflexivity.
Defined.

Lemma axis4_built : time_axis 4 (inl 1) axis4.
Proof.
  exists (lit (1 # 4)%Q), (of_Z 1). repeat split; vm_compute; reflexivity.
Defined.

Ltac run_rows :=
  let out := fresh "out" in
  let w1 := fresh "w1" in
  let Hrun := fresh "Hrun" in
  intros out w1 Hrun; vm_compute in Hrun; injection Hrun as <- _;
  repeat (constructor; [vm_compute; reflexivity|]); constructor.

(** The end-to-end scenario is a valid run. *)
Lemma s1_valid :
  valid_run args_s1 world0 s1 (parse_text meta_text) (parse_text spec_text) 4
    (inl 1) axis4.
Proof.
  constructor.
  - exists s1_text. repeat split; vm_compute; reflexivity.
  - exists meta_text. repeat split; vm_compute; reflexivity.
  - exists spec_text. repeat split; vm_compute; reflexivity.
  - vm_compute. reflexivity.
  - vm_compute. reflexivity.
  - eexists. vm_compute. reflexivity.
  - exact axis4_built.
  - repeat constructor.
  - reflexivity.
  - reflexivity.
  - run_rows.
  - vm_compute. reflexivity.
  - vm_compute. reflexivity.
  - vm_compute. reflexivity.
  - vm_compute. reflexivity.
Defined.



(** An instrument type holding a line feed is a valid input. *)
Lemma two_lines_valid :
  valid_run (args_of "s1.ndjson" "two_lines.am") world0 s1
    (parse_text meta_text) (parse_text two_lines_text) 4 (inr (lit 1%Q)) axis4.
Proof.
  constructor.
  - exists s1_text. repeat split; vm_compute; reflexivity.
  - exists meta_text. repeat split; vm_compute; reflexivity.
  - exists two_lines_text. repeat split; vm_compute; reflexivity.
  - vm_compute. reflexivity.
  - vm_compute. reflexivity.
  - eexists. vm_compute. reflexivity.
  - exists (lit (1 # 4)%Q), (lit 1%Q). repeat split; vm_compute; reflexivity.
  - repeat constructor.
  - reflexivity.
  - reflexivity.
  - run_rows.
  - vm_compute. reflexivity.
  - vm_compute. reflexivity.
  - vm_compute. reflexivity.
  - vm_compute. reflexivity.
Qed.


(** C5: two equal records without a label, at positions 1 and 2, both
    get the label [Foo_1]; the second one never gets [Foo_2]. *)
Theorem duplicate_signatures_share_label :
  exists rows w',
    for_each (injection twins (parse_text meta_text) 4 (PyInt 1)) 0%nat twins world0
      = (Ok rows, w') /\
    map (fun row => match row with
                    | PyDict r => dict_get "label" r
                    | _ => None
                    end) rows
      = [Some (PyStr "Foo_1"); Some (PyStr "Foo_1")] /\
    generated_label twins (parse_text meta_text) 1 (PyDict [("frequency", PyInt 5)])
      = "Foo_1".
Proof.
  eexists _, _. split; [vm_compute; reflexivity|].
  split; vm_compute; reflexivity.
Qed.

(** C7: a file in Latin-1 opens, and its one line [Name: caf\351] has a
    colon and a value that is no literal; the parser raises
    UnicodeDecodeError on it, and so does a run with it as the
    instrument file. *)
Lemma undecodable_file_raises :
  files world0 !! "latin1.am" = Some ("Name: caf" +:+ String "233" LF) /\
  parse_key_value_am "latin1.am" world0 = (Raise UnicodeDecodeError, world0) /\
  main (args_of "s1.ndjson" "latin1.am") world0 = (Raise UnicodeDecodeError, world0).
Proof. repeat split; vm_compute; reflexivity. Qed.

Lemma loader_strict_parser_lenient_witness :
  main args_missing world0 = (Raise IOError, world0) /\
  main args_broken world0 = (Raise JSONDecodeError, world0) /\
  parse_key_value_am "signatures.am" world0 = (Ok (parse_text meta_text), world0) /\
  parse_line (F:=float) (G:=nat) [] "# signature metadata" = [] /\
  parse_line (F:=float) (G:=nat) [] ("TheoryVariant" +:+ ":" +:+ " Foo")
    = dict_set (strip "TheoryVariant") (PyStr (strip " Foo")) [].
Proof.
  destruct (loader_strict_parser_lenient args_missing world0)
    as (Hio & _ & Hparse & _ & Hskip & Hraw).
  destruct (loader_strict_parser_lenient args_broken world0)
    as (_ & Hjson & _).
  split; [apply Hio; vm_compute; reflexivity|].
  split; [apply (Hjson "{not json"); vm_compute; reflexivity|].
  split; [apply Hparse; vm_compute; reflexivity|].
  split; [apply Hskip; reflexivity|].
  apply Hraw; vm_compute; reflexivity.
Defined.

Lemma parse_key_value_am_pure_witness :
  files world0 !! "signatures.am" = files world0 !! "copy.am" /\
  fst (parse_key_value_am "signatures.am" world0)
    = fst (parse_key_value_am "copy.am" world0).
Proof.
  split; [vm_compute; reflexivity|].
  apply (parse_key_value_am_pure "signatures.am" "copy.am" world0 world0).
  vm_compute. reflexivity.
Defined.


End Examples.

(** ** Further properties of the script *)

(** *** The parsed mapping *)

Section ParsedMapping.
Context {F G : Type} `{!Float64 F} `{!Host F G}.

Lemma dict_keys_get (key : string) (d : list (string * pyval F)) :
  key ∈ dict_keys d <-> is_Some (dict_get key d).
Proof.
  induction d as [|[k v] d IH]; simpl.
  - split; [intros Hin; inversion Hin|intros [? ?]; discriminate].
  - destruct (String.eqb k key) eqn:E.
    + apply String.eqb_eq in E as ->. split; [eauto|left].
    + apply String.eqb_neq in E. rewrite <- IH. split.
      * intros Hin. inversion Hin; subst; [contradiction|assumption].
      * intros Hin. right. exact Hin.
Qed.

Lemma dict_keys_set (k : string) (v : pyval F) (d : list (string * pyval F)) :
  dict_keys (dict_set k v d)
  = if bool_decide (k ∈ dict_keys d) then dict_keys d else (dict_keys d ++ [k])%list.
Proof.
  unfold dict_keys.
  induction d as [|[k' v'] d IH]; cbn [dict_set map fst].
  - rewrite bool_decide_eq_false_2; [reflexivity|]. intros Hin. inversion Hin.
  - destruct (String.eqb k' k) eqn:E; cbn [map fst].
    + apply String.eqb_eq in E as ->.
      rewrite bool_decide_eq_true_2 by left. reflexivity.
    + apply String.eqb_neq in E. rewrite IH.
      destruct (decide (k ∈ map fst d)) as [D|D].
      * rewrite (bool_decide_eq_true_2 (k ∈ map fst d)) by exact D.
        rewrite (bool_decide_eq_true_2 (k ∈ k' :: map fst d)) by (right; exact D).
        reflexivity.
      * rewrite (bool_decide_eq_false_2 (k ∈ map fst d)) by exact D.
        rewrite (bool_decide_eq_false_2 (k ∈ k' :: map fst d)); [reflexivity|].
        intros Hin. inversion Hin; subst; [congruence|contradiction].
Qed.

Lemma parse_line_keys (meta : list (string * pyval F)) (line : string) :
  NoDup (dict_keys meta) -> Forall key_shape (dict_keys meta) ->
  NoDup (dict_keys (parse_line meta line)) /\
  Forall key_shape (dict_keys (parse_line meta line)).
Proof.
  intros Hnd Hshape.
  destruct (split_colon line) as [[k v]|] eqn:Hs.
  - rewrite (parse_line_colon meta line k v Hs), dict_keys_set.
    destruct (bool_decide (strip k ∈ dict_keys meta)) eqn:D; [auto|].
    apply bool_decide_eq_false_1 in D. split.
    + apply NoDup_app. split; [exact Hnd|]. split.
      * intros x Hx Hk. apply list_elem_of_singleton in Hk as ->. contradiction.
      * apply NoDup_singleton.
    + apply Forall_app. split; [exact Hshape|].
      apply Forall_singleton.
      destruct (strip_spec k) as (_ & Hhead & Hlast).
      repeat split; [exact Hhead|exact Hlast|].
      apply strip_no_colon. eapply split_colon_key. exact Hs.
  - unfold parse_line. rewrite Hs. auto.
Qed.

Lemma parse_lines_keys (lines : list string) :
  forall meta : list (string * pyval F),
  NoDup (dict_keys meta) -> Forall key_shape (dict_keys meta) ->
  NoDup (dict_keys (fold_left parse_line lines meta)) /\
  Forall key_shape (dict_keys (fold_left parse_line lines meta)).
Proof.
  induction lines as [|l lines IH]; intros meta Hnd Hshape; [auto|].
  simpl. destruct (parse_line_keys meta l Hnd Hshape) as [Hnd' Hshape'].
  apply IH; assumption.
Qed.

(** X1: the keys of the mapping that [parse_key_value_am] builds are
    pairwise distinct, neither start nor end with a whitespace
    character, and contain no colon. *)
Theorem parse_text_keys (content : string) :
  NoDup (dict_keys (parse_text content)) /\
  forall key, key ∈ dict_keys (parse_text content) ->
    head_is_space key = false /\ last_is_space key = false /\
    contains_colon key = false.
Proof.
  destruct (parse_lines_keys (readlines content) [])
    as [Hnd Hshape]; [apply NoDup_nil_2|apply Forall_nil_2|].
  split; [exact Hnd|].
  intros key Hin. rewrite Forall_forall in Hshape. exact (Hshape key Hin).
Qed.

Lemma parse_lines_sound (all lines : list string) :
  forall meta : list (string * pyval F),
  (forall l, l ∈ lines -> l ∈ all) ->
  (forall key v, dict_get key meta = Some v ->
     exists line k val, line ∈ all /\ split_colon line = Some (k, val) /\
       strip k = key /\ v = value_of (strip val)) ->
  forall key v, dict_get key (fold_left parse_line lines meta) = Some v ->
    exists line k val, line ∈ all /\ split_colon line = Some (k, val) /\
      strip k = key /\ v = value_of (strip val).
Proof.
  induction lines as [|l lines IH]; intros meta Hsub Hmeta; [exact Hmeta|].
  simpl. apply IH; [intros l' Hl'; apply Hsub; right; exact Hl'|].
  intros key v Hget.
  destruct (split_colon l) as [[k val]|] eqn:Hs.
  - rewrite (parse_line_colon meta l k val Hs) in Hget.
    destruct (decide (strip k = key)) as [<-|Hne].
    + rewrite dict_get_set_eq in Hget. injection Hget as <-.
      exists l, k, val. split; [apply Hsub; left|]. auto.
    + rewrite dict_get_set_ne in Hget by exact Hne. apply Hmeta, Hget.
  - unfold parse_line in Hget. rewrite Hs in Hget. apply Hmeta, Hget.
Qed.

(** X2: the mapping holds nothing but what the lines carry: every entry
    is the trimmed key and the value of some line of the file that
    contains a colon; a file without any colon gives the empty mapping. *)
Theorem parse_text_entries_from_lines (content : string) :
  (forall key v, dict_get key (parse_text content) = Some v ->
     exists line k val,
       line ∈ readlines content /\ split_colon line = Some (k, val) /\
       strip k = key /\
       v = match literal_eval (strip val) with
           | Some x => x
           | None => PyStr (strip val)
           end) /\
  ((forall l, l ∈ readlines content -> contains_colon l = false) ->
   parse_text content = []).
Proof.
  split.
  - apply (parse_lines_sound (readlines content) (readlines content) []); [auto|].
    intros key v Hget. discriminate.
  - intros Hnone. unfold parse_text.
    assert (Hfold : forall (lines : list string) (meta : list (string * pyval F)),
               (forall l, l ∈ lines -> contains_colon l = false) ->
               fold_left parse_line lines meta = meta).
    { induction lines as [|l lines IH]; intros meta Hl; [reflexivity|].
      simpl. rewrite parse_line_no_colon by (apply Hl; left).
      apply IH. intros l' Hl'. apply Hl. right. exact Hl'. }
    apply Hfold, Hnone.
Qed.

(** X17: whitespace around the key, around the value and at the end of
    the line (a carriage return or a no-break space included) does not
    change what a line contributes: the entry is the bare key with the
    value of the bare text. *)
Theorem parse_line_ignores_blanks (meta : list (string * pyval F))
    (ws1 ws2 ws3 ws4 key val : string) :
  all_space ws1 = true -> all_space ws2 = true ->
  all_space ws3 = true -> all_space ws4 = true ->
  contains_colon key = false ->
  head_is_space key = false -> last_is_space key = false ->
  head_is_space val = false -> last_is_space val = false ->
  parse_line meta ((ws1 +:+ key +:+ ws2) +:+ ":" +:+ (ws3 +:+ val +:+ ws4))
  = dict_set key (match literal_eval val with
                  | Some v => v
                  | None => PyStr val
                  end) meta.
Proof.
  intros H1 H2 H3 H4 Hk Hkh Hkl Hvh Hvl.
  rewrite (parse_line_colon meta _ (ws1 +:+ key +:+ ws2) (ws3 +:+ val +:+ ws4)).
  - rewrite !strip_core by assumption. reflexivity.
  - apply split_colon_first.
    rewrite !contains_colon_append, Hk, !all_space_no_colon by assumption.
    reflexivity.
Qed.

End ParsedMapping.

(** *** Outcomes of a run *)

Section Outcomes.
Context {F G : Type} `{!Float64 F} `{!Host F G}.

Lemma injection_same_io sigs sig_meta (sr : Z) (duration : pyval F) (i : nat)
    (sig : pyval F) (w : world G) :
  same_io w (snd (injection sigs sig_meta sr duration i sig w)).
Proof.
  unfold injection.
  destruct sig as [| | | | | | |fields]; try apply same_io_refl.
  rewrite bind_lift_Ok. cbn zeta.
  destruct (py_float (dict_get_default "frequency" _ fields)) as [freq|e];
    [rewrite bind_lift_Ok|apply same_io_refl].
  destruct (py_number duration) as [n|e];
    [rewrite bind_lift_Ok|apply same_io_refl].
  destruct (truediv n 8) as [d8|e];
    [rewrite bind_lift_Ok|apply same_io_refl].
  destruct (py_float (dict_get_default "width" _ fields)) as [width|e];
    [rewrite bind_lift_Ok|apply same_io_refl].
  destruct (py_float (dict_get_default "amplitude" _ fields)) as [amp|e];
    [rewrite bind_lift_Ok|apply same_io_refl].
  pose proof (synthesize_signal_same_io freq width amp sr n w) as Hio.
  unfold bind.
  destruct (synthesize_signal freq width amp sr n w) as [[tts|e] w']; exact Hio.
Qed.

Lemma for_each_same_io {A B} (body : nat -> A -> M G B) :
  (forall i x w, same_io w (snd (body i x w))) ->
  forall l i w, same_io w (snd (for_each body i l w)).
Proof.
  intros Hbody. induction l as [|x l IH]; intros i w; [apply same_io_refl|].
  cbn [for_each]. unfold bind at 1.
  pose proof (Hbody i x w) as H1.
  destruct (body i x w) as [[y|e] w1]; [|exact H1].
  unfold bind at 1.
  pose proof (IH (S i) w1) as H2.
  destruct (for_each body (S i) l w1) as [[ys|e] w2];
    eapply same_io_trans; eauto.
Qed.

Lemma for_each_length {A B} (body : nat -> A -> M G B) (l : list A) :
  forall i w out w', for_each body i l w = (Ok out, w') -> length out = length l.
Proof.
  induction l as [|x l IH]; intros i w out w'.
  - intros [= <- _]. reflexivity.
  - cbn [for_each]. unfold bind at 1.
    destruct (body i x w) as [[y|e] w1]; [|discriminate].
    unfold bind at 1.
    destruct (for_each body (S i) l w1) as [[ys|e] w2] eqn:Hrest; [|discriminate].
    intros [= <- _]. simpl. f_equal. exact (IH _ _ _ _ Hrest).
Qed.

Ltac encode_failure Hfiles Hwr :=
  cbn [files writable rng stdout];
  split; [exact Hwr|];
  split; [intros p Hn Hm; rewrite ?lookup_insert_ne by congruence;
          rewrite Hfiles; reflexivity|];
  intros Hne; contradiction.

(** Every way a run of [main] can end. *)
Lemma main_outcome (a : args) (w : world G) :
  match main a w with
  | (Ok _, w') =>
      exists out_nd inst sr,
        rows_of a w out_nd inst sr /\
        files w' =
          <[output_meta a := summary_text inst sr (length out_nd)]>
            (<[output_ndjson a := ndjson_text out_nd]> (files w)) /\
        stdout w' =
          (stdout w ++
           ["Wrote " +:+ str_of_Z (Z.of_nat (length out_nd))
            +:+ " mock signals to " +:+ output_ndjson a;
            "Wrote summary to " +:+ output_meta a])%list /\
        writable w' = writable w
  | (Raise e, w') =>
      writable w' = writable w /\
      (forall p, p <> output_ndjson a -> p <> output_meta a ->
         files w' !! p = files w !! p) /\
      (e <> UnicodeEncodeError ->
       stdout w' = stdout w /\
       (files w' = files w \/
        (e = IOError /\ writable w (output_meta a) = false /\
         writable w (output_ndjson a) = true /\
         exists out_nd inst sr,
           rows_of a w out_nd inst sr /\
           files w' = <[output_ndjson a := ndjson_text out_nd]> (files w))))
  end.
Proof.
  unfold main.
  destruct (load_signatures (signatures a) (signature_meta a) w)
    as [[loaded|e] w0] eqn:Hload.
  2: { rewrite (bind_Raise _ _ _ _ _ Hload).
       rewrite load_signatures_outcome in Hload. injection Hload as _ <-. auto. }
  rewrite (bind_Ok _ _ _ _ _ Hload).
  assert (Hw0 : w0 = w)
    by (rewrite load_signatures_outcome in Hload; congruence).
  subst w0. cbn zeta.
  destruct (parse_key_value_am (instrument_spec a) w) as [[inst|e] w0] eqn:Hinst.
  2: { rewrite (bind_Raise _ _ _ _ _ Hinst).
       rewrite parse_key_value_am_run in Hinst. injection Hinst as _ <-. auto. }
  rewrite (bind_Ok _ _ _ _ _ Hinst).
  assert (Hw0 : w0 = w)
    by (rewrite parse_key_value_am_run in Hinst; congruence).
  subst w0.
  destruct (py_int (dict_get_default "SamplingRate" (PyInt 4096) inst))
    as [sr|e] eqn:Hsr; [rewrite bind_lift_Ok|rewrite bind_lift_Raise; auto].
  pose proof (for_each_same_io
                (injection (fst loaded) (snd loaded) sr
                   (dict_get_default "Duration" (PyFloat (lit 1%Q)) inst))
                (injection_same_io _ _ _ _) (fst loaded) 0%nat w) as Hio.
  destruct (for_each _ 0%nat (fst loaded) w) as [[out_nd|e] w1] eqn:Hloop;
    destruct Hio as (Hfiles & Hwr & Hso); cbn [snd] in *.
  2: { rewrite (bind_Raise _ _ _ _ _ Hloop).
       split; [exact Hwr|]. split; [intros; rewrite Hfiles; reflexivity|auto]. }
  rewrite (bind_Ok _ _ _ _ _ Hloop).
  assert (Hrows : rows_of a w out_nd inst sr) by (exists loaded, w1; auto).
  unfold bind at 1, open_write at 1.
  destruct (writable w1 (output_ndjson a)) eqn:Hw1.
  2: { split; [exact Hwr|]. split; [intros; rewrite Hfiles; reflexivity|auto]. }
  unfold bind at 1.
  pose proof (write_rows_outcome (output_ndjson a) out_nd (files w1) (writable w1)
                (rng w1) (stdout w1) EmptyString) as Hwrite.
  destruct (write_rows (output_ndjson a) out_nd _) as [[[]|e] w2].
  2: { destruct Hwrite as (-> & text & ->). encode_failure Hfiles Hwr. }
  subst w2. change (EmptyString +:+ ndjson_text out_nd) with (ndjson_text out_nd).
  unfold bind at 1, open_write at 1. cbn [files writable rng stdout].
  destruct (writable w1 (output_meta a)) eqn:Hw2.
  2: { cbn [files writable rng stdout]. split; [exact Hwr|].
       split; [intros p Hn Hm; rewrite lookup_insert_ne by congruence;
               rewrite Hfiles; reflexivity|].
       intros _. split; [exact Hso|]. right. split; [reflexivity|].
       split; [rewrite <- Hwr; exact Hw2|].
       split; [rewrite <- Hwr; exact Hw1|].
       exists out_nd, inst, sr. rewrite Hfiles. auto. }
  do 6 (unfold bind at 1; rewrite f_write_cases;
        match goal with
        | |- context [if valid_utf8 ?s then _ else _] => destruct (valid_utf8 s)
        end; [|encode_failure Hfiles Hwr]).
  unfold bind at 1. rewrite print_cases.
  match goal with
  | |- context [if valid_utf8 ?s then _ else _] => destruct (valid_utf8 s)
  end; [|encode_failure Hfiles Hwr].
  rewrite print_cases.
  match goal with
  | |- context [if valid_utf8 ?s then _ else _] => destruct (valid_utf8 s)
  end; [|encode_failure Hfiles Hwr].
  cbn [files writable rng stdout].
  exists out_nd, inst, sr. split; [exact Hrows|].
  rewrite Hfiles, Hwr, Hso, <- !app_assoc.
  unfold summary_text. rewrite !append_assoc. auto.
Qed.

End Outcomes.

(** *** Runs that fail, runs on no signature *)

Section Failures.
Context {F G : Type} `{!Float64 F} `{!Host F G}.


(** X4: whatever the outcome, a run changes no file other than the two
    output paths, and never the set of writable paths. *)
Theorem main_touches_only_outputs (a : args) (w : world G) (path : string) :
  path <> output_ndjson a -> path <> output_meta a ->
  files (snd (main a w)) !! path = files w !! path /\
  writable (snd (main a w)) = writable w.
Proof.
  intros Hn Hm. pose proof (main_outcome a w) as Hout.
  destruct (main a w) as [[[]|e] w']; cbn [snd].
  - destruct Hout as (out_nd & inst & sr & _ & -> & _ & Hwr).
    rewrite !lookup_insert_ne by congruence. auto.
  - destruct Hout as (Hwr & Hfiles & _). auto.
Qed.

(** X5: in every run that returns, the summary counts exactly the
    records of the NDJSON file, both files exist, and two lines were
    printed; when both output flags name one path, that file ends up
    holding the summary alone. *)
Theorem main_success_effects (a : args) (w w' : world G) :
  main a w = (Ok tt, w') ->
  exists out_nd inst sr,
    files w' !! output_meta a = Some (summary_text inst sr (length out_nd)) /\
    (output_ndjson a <> output_meta a ->
     files w' !! output_ndjson a = Some (ndjson_text out_nd)) /\
    (output_ndjson a = output_meta a ->
     files w' !! output_ndjson a = Some (summary_text inst sr (length out_nd))) /\
    stdout w' =
      (stdout w ++
       ["Wrote " +:+ str_of_Z (Z.of_nat (length out_nd))
        +:+ " mock signals to " +:+ output_ndjson a;
        "Wrote summary to " +:+ output_meta a])%list.
Proof.
  intros Hrun. pose proof (main_outcome a w) as Hout. rewrite Hrun in Hout.
  cbv beta iota in Hout. destruct Hout as (out_nd & inst & sr & _ & -> & Hso & _).
  exists out_nd, inst, sr. split; [apply lookup_insert_eq|].
  split; [|split; [|exact Hso]].
  - intros Hne. rewrite lookup_insert_ne by congruence. apply lookup_insert_eq.
  - intros ->. apply lookup_insert_eq.
Qed.

(** X6: the metadata file and the instrument file are mandatory: once
    the signature file has loaded, a metadata file or an instrument file
    that cannot be opened makes the run raise IOError, with nothing
    written or printed; a signature or metadata file whose bytes are no
    text raises UnicodeDecodeError instead, likewise with nothing
    written or printed. *)
Theorem main_requires_inputs (a : args) (w : world G) (text : string)
    (sigs : list (pyval F)) :
  files w !! signatures a = Some text -> ndjson_load text = Some sigs ->
  (valid_utf8 text = true ->
   (files w !! signature_meta a = None ->
    load_signatures (signatures a) (signature_meta a) w = (Raise IOError, w) /\
    main a w = (Raise IOError, w)) /\
   (forall text', files w !! signature_meta a = Some text' ->
    valid_utf8 text' = true ->
    files w !! instrument_spec a = None ->
    main a w = (Raise IOError, w))) /\
  (valid_utf8 text = false -> main a w = (Raise UnicodeDecodeError, w)) /\
  (forall text', valid_utf8 text = true ->
   files w !! signature_meta a = Some text' -> valid_utf8 text' = false ->
   main a w = (Raise UnicodeDecodeError, w)).
Proof.
  intros Hf Hl. split; [|split].
  - intros Hv. split.
    + intros Hm.
      assert (Hload : load_signatures (signatures a) (signature_meta a) w
                      = (Raise IOError, w))
        by (rewrite load_signatures_outcome, Hf, Hv, Hl, Hm; reflexivity).
      split; [exact Hload|].
      unfold main. rewrite (bind_Raise _ _ _ _ _ Hload). reflexivity.
    + intros text' Hm Hv' Hs. unfold main.
      erewrite bind_Ok
        by (rewrite load_signatures_outcome, Hf, Hv, Hl, Hm, Hv'; reflexivity).
      cbn [fst snd]. unfold bind at 1.
      rewrite parse_key_value_am_run, Hs. reflexivity.
  - intros Hv. unfold main.
    erewrite bind_Raise
      by (rewrite load_signatures_outcome, Hf, Hv; reflexivity).
    reflexivity.
  - intros text' Hv Hm Hv'. unfold main.
    erewrite bind_Raise
      by (rewrite load_signatures_outcome, Hf, Hv, Hl, Hm, Hv'; reflexivity).
    reflexivity.
Qed.


End Failures.

(** *** Invalid signatures and instrument values *)

Section Invalid.
Context {F G : Type} `{!Float64 F} `{!Host F G}.

Lemma py_float_errors (v : pyval F) (e : exn) :
  py_float v = Raise e -> e = TypeError \/ e = ValueError \/ e = OverflowError.
Proof.
  destruct v; simpl; try (intros [= <-]; auto); try discriminate.
  - destruct (float_of_int z); [discriminate|]. intros [= <-]. auto.
  - destruct (float_of_str s); [discriminate|]. intros [= <-]. auto.
Qed.

Lemma field_ok_of_default (k : string) (dflt x : F) (fields : list (string * pyval F)) :
  py_float (dict_get_default k (PyFloat dflt) fields) = Ok x -> field_ok k fields = true.
Proof.
  unfold field_ok, dict_get_default.
  destruct (dict_get k fields) as [v|]; [|reflexivity].
  intros ->. reflexivity.
Qed.

Lemma injection_invalid sigs sig_meta (sr : Z) (duration : pyval F) (n : Z + F)
    (d8 : F) (i : nat) (sig : pyval F) (w : world G) :
  py_number duration = Ok n -> truediv n 8 = Ok d8 ->
  valid_signature sig = false ->
  exists e,
    injection sigs sig_meta sr duration i sig w = (Raise e, w) /\
    (e = AttributeError \/ e = TypeError \/ e = ValueError \/ e = OverflowError).
Proof.
  intros Hn Hd8 Hbad. unfold injection.
  destruct sig as [| | | | | | |fields];
    try (exists AttributeError; split; [reflexivity|auto]).
  rewrite bind_lift_Ok. cbn zeta.
  destruct (py_float (dict_get_default "frequency" _ fields)) as [freq|e] eqn:Hf.
  2: { exists e. split; [reflexivity|]. right. eapply py_float_errors, Hf. }
  rewrite bind_lift_Ok, Hn, bind_lift_Ok, Hd8, bind_lift_Ok.
  destruct (py_float (dict_get_default "width" _ fields)) as [width|e] eqn:Hw.
  2: { exists e. split; [reflexivity|]. right. eapply py_float_errors, Hw. }
  rewrite bind_lift_Ok.
  destruct (py_float (dict_get_default "amplitude" _ fields)) as [amp|e] eqn:Ha.
  2: { exists e. split; [reflexivity|]. right. eapply py_float_errors, Ha. }
  exfalso. simpl in Hbad.
  rewrite (field_ok_of_default _ _ _ _ Hf), (field_ok_of_default _ _ _ _ Hw),
    (field_ok_of_default _ _ _ _ Ha) in Hbad. discriminate.
Qed.

Lemma for_each_injection_invalid sigs sig_meta (sr : Z) (duration : pyval F)
    (n : Z + F) (d8 : F) (t : list F) (todo : list (pyval F)) :
  py_number duration = Ok n -> truediv n 8 = Ok d8 -> time_axis sr n t ->
  Exists (fun sig => valid_signature sig = false) todo ->
  forall (i : nat) (w : world G),
  exists e w',
    for_each (injection sigs sig_meta sr duration) i todo w = (Raise e, w') /\
    (e = AttributeError \/ e = TypeError \/ e = ValueError \/ e = OverflowError).
Proof.
  intros Hn Hd8 Ht. induction todo as [|sig todo IH]; intros Hex i w.
  - inversion Hex.
  - cbn [for_each].
    destruct (valid_signature sig) eqn:Hv.
    + assert (Hrest : Exists (fun sig => valid_signature sig = false) todo).
      { inversion Hex as [? ? Hhead|]; subst; [congruence|assumption]. }
      destruct sig as [| | | | | | |fields]; try discriminate.
      destruct (injection_run sigs sig_meta sr duration n d8 t i fields w Hn Hd8 Ht Hv)
        as (samples & w1 & Hrun & _).
      destruct (IH Hrest (S i) w1) as (e & w' & Hloop & He).
      exists e, w'. split; [|exact He].
      rewrite (bind_Ok _ _ _ _ _ Hrun), (bind_Raise _ _ _ _ _ Hloop). reflexivity.
    + destruct (injection_invalid sigs sig_meta sr duration n d8 i sig w Hn Hd8 Hv)
        as (e & Hrun & He).
      exists e, w. split; [|exact He].
      rewrite (bind_Raise _ _ _ _ _ Hrun). reflexivity.
Qed.

(** The run of [main] up to the loop. *)
Lemma main_until_loop (a : args) (w : world G) (t1 t2 t3 : string)
    (sigs : list (pyval F)) (sr : Z) :
  files w !! signatures a = Some t1 -> valid_utf8 t1 = true ->
  ndjson_load t1 = Some sigs ->
  files w !! signature_meta a = Some t2 -> valid_utf8 t2 = true ->
  files w !! instrument_spec a = Some t3 -> valid_utf8 t3 = true ->
  py_int (dict_get_default "SamplingRate" (PyInt 4096) (parse_text t3)) = Ok sr ->
  forall e w',
  for_each (injection sigs (parse_text t2) sr
              (dict_get_default "Duration" (PyFloat (lit 1%Q)) (parse_text t3)))
    0%nat sigs w = (Raise e, w') ->
  main a w = (Raise e, w').
Proof.
  intros Hf1 Hv1 Hl Hf2 Hv2 Hf3 Hv3 Hsr e w' Hloop. unfold main.
  erewrite bind_Ok
    by (rewrite load_signatures_outcome, Hf1, Hv1, Hl, Hf2, Hv2; reflexivity).
  cbn [fst snd].
  erewrite bind_Ok by (rewrite parse_key_value_am_run, Hf3, Hv3; reflexivity).
  rewrite Hsr, bind_lift_Ok.
  rewrite (bind_Raise _ _ _ _ _ Hloop). reflexivity.
Qed.

(** X16: a SamplingRate that [int()] rejects (a text that is no integer,
    a list, None, an infinity, a NaN) fails the run with ValueError,
    TypeError or OverflowError before any signal is synthesized: files,
    generator and output are untouched. *)
Theorem main_bad_sampling_rate (a : args) (w : world G) (t1 t2 t3 : string)
    (sigs : list (pyval F)) (e : exn) :
  files w !! signatures a = Some t1 -> valid_utf8 t1 = true ->
  ndjson_load t1 = Some sigs ->
  files w !! signature_meta a = Some t2 -> valid_utf8 t2 = true ->
  files w !! instrument_spec a = Some t3 -> valid_utf8 t3 = true ->
  py_int (dict_get_default "SamplingRate" (PyInt 4096) (parse_text t3)) = Raise e ->
  main a w = (Raise e, w) /\
  (forall x, dict_get_default "SamplingRate" (PyInt 4096) (parse_text t3) = PyFloat x ->
     ftrunc x = Raise e) /\
  (forall s, dict_get_default "SamplingRate" (PyInt 4096) (parse_text t3) = PyStr s ->
     e = ValueError) /\
  ((forall x, dict_get_default "SamplingRate" (PyInt 4096) (parse_text t3) <> PyFloat x) ->
   e = ValueError \/ e = TypeError).
Proof.
  intros Hf1 Hv1 Hl Hf2 Hv2 Hf3 Hv3 Hsr. split; [|split; [|split]].
  - unfold main.
    erewrite bind_Ok
      by (rewrite load_signatures_outcome, Hf1, Hv1, Hl, Hf2, Hv2; reflexivity).
    cbn [fst snd].
    erewrite bind_Ok by (rewrite parse_key_value_am_run, Hf3, Hv3; reflexivity).
    rewrite Hsr. reflexivity.
  - intros x Hx. rewrite Hx in Hsr. exact Hsr.
  - intros s Hs. rewrite Hs in Hsr. simpl in Hsr.
    destruct (int_of_str s); congruence.
  - intros Hnf.
    destruct (dict_get_default "SamplingRate" _ _) as [| | |x|s| | |];
      simpl in Hsr; try discriminate; try (injection Hsr as <-; auto).
    + exfalso. exact (Hnf x eq_refl).
    + destruct (int_of_str s); [discriminate|]. injection Hsr as <-. auto.
Qed.

(** X8: one invalid signature anywhere in the input (a record that is no
    object, or whose frequency, width or amplitude does not convert to a
    float), with an instrument for which valid signatures synthesize,
    fails the whole run with AttributeError, TypeError, ValueError or
    OverflowError: no output file is written, not even for the valid
    signatures before it, and nothing is printed. *)
Theorem main_invalid_signature (a : args) (w : world G) (t1 t2 t3 : string)
    (sigs : list (pyval F)) (sr : Z) (n : Z + F) (d8 : F) (t : list F) :
  files w !! signatures a = Some t1 -> valid_utf8 t1 = true ->
  ndjson_load t1 = Some sigs ->
  files w !! signature_meta a = Some t2 -> valid_utf8 t2 = true ->
  files w !! instrument_spec a = Some t3 -> valid_utf8 t3 = true ->
  py_int (dict_get_default "SamplingRate" (PyInt 4096) (parse_text t3)) = Ok sr ->
  py_number (dict_get_default "Duration" (PyFloat (lit 1%Q)) (parse_text t3)) = Ok n ->
  truediv n 8 = Ok d8 -> time_axis sr n t ->
  Exists (fun sig => valid_signature sig = false) sigs ->
  exists e w',
    main a w = (Raise e, w') /\
    (e = AttributeError \/ e = TypeError \/ e = ValueError \/ e = OverflowError) /\
    files w' = files w /\ stdout w' = stdout w.
Proof.
  intros Hf1 Hv1 Hl Hf2 Hv2 Hf3 Hv3 Hsr Hn Hd8 Ht Hex.
  destruct (for_each_injection_invalid sigs (parse_text t2) sr _ n d8 t sigs
              Hn Hd8 Ht Hex 0%nat w) as (e & w' & Hloop & He).
  pose proof (main_until_loop a w t1 t2 t3 sigs sr Hf1 Hv1 Hl Hf2 Hv2 Hf3 Hv3 Hsr
                e w' Hloop) as Hrun.
  exists e, w'. split; [exact Hrun|]. split; [exact He|].
  pose proof (for_each_same_io
                (injection sigs (parse_text t2) sr
                   (dict_get_default "Duration" (PyFloat (lit 1%Q)) (parse_text t3)))
                (injection_same_io _ _ _ _) sigs 0%nat w) as Hio.
  rewrite Hloop in Hio. destruct Hio as (Hfiles & _ & Hso). auto.
Qed.


End Invalid.

(** *** The records of a valid run *)

Section Records.
Context {F G : Type} `{!Float64 F} `{!Host F G}.

(** The length of an arange. *)
Lemma np_arange_length (start stop step : F) (t : list F) :
  np_arange start stop step = Ok t ->
  exists n, fceil (fdiv (fsub stop start) step) = Some n /\
    - 2 ^ 63 <= n <= 2 ^ 63 /\ length t = Z.to_nat (npy_intp n).
Proof.
  unfold np_arange.
  destruct (fceil _) as [n|]; [|discriminate].
  destruct (Z.ltb_spec n (- 2 ^ 63)); [discriminate|].
  destruct (Z.ltb_spec (2 ^ 63) n); [discriminate|].
  cbn [orb]. cbn zeta.
  destruct (np_alloc _); [discriminate|].
  intros [= <-]. exists n. split; [reflexivity|]. split; [lia|].
  rewrite length_map, length_seq. reflexivity.
Qed.



(** X12: the number in a generated label is that of the first record
    equal to the signature: for a record at position [i] (from 0) that
    equals the one at [j < i] and none before [j], the label is
    [<TheoryVariant>_<j+1>]; the number never exceeds [i + 1]. *)
Theorem generated_label_first_equal (sigs : list (pyval F))
    (sig_meta : list (string * pyval F)) (i j : nat) (sig y : pyval F) :
  (j < i)%nat -> sigs !! j = Some y -> py_eqb y sig = true ->
  (forall j' y', (j' < j)%nat -> sigs !! j' = Some y' -> py_eqb y' sig = false) ->
  generated_label sigs sig_meta i sig
  = py_str (dict_get_default "TheoryVariant" (PyStr "sig") sig_meta)
    +:+ "_" +:+ str_of_Z (Z.of_nat j + 1) /\
  (list_index sigs i sig + 1 <= i + 1)%nat.
Proof.
  intros Hlt Hj Heq Hmin.
  assert (Hidx : list_index sigs i sig = j).
  { pose proof (list_index_earlier sigs i j sig y Hlt Hj Heq) as Hle.
    destruct (decide (list_index sigs i sig = j)) as [|Hne]; [assumption|].
    exfalso. revert Hle Hne. unfold list_index.
    destruct (list_find _ _) as [[j' y']|] eqn:Hfind; [|lia].
    apply list_find_Some in Hfind as (Hj' & Heq' & _).
    apply lookup_take_Some in Hj' as [Hj' _].
    intros Hle Hne. assert (Hlt' : (j' < j)%nat) by lia.
    rewrite (Hmin j' y' Hlt' Hj') in Heq'. discriminate. }
  split.
  - unfold generated_label. rewrite Hidx. reflexivity.
  - pose proof (list_index_le sigs i sig). lia.
Qed.

(** X13: when the length [ceil((d - 0) / (1.0 / sr))] of the time axis
    is not positive, as for a duration of 0 or below,
    [synthesize_signal] returns an empty time axis and an empty time
    series, and draws nothing from the generator. *)
Theorem synthesize_signal_empty (freq width amp : F) (sr : Z) (duration : Z + F)
    (w : world G) (step d : F) (len : Z) :
  one_over sr = Ok step -> np_double duration = Ok d ->
  fceil (fdiv (fsub d (of_Z 0)) step) = Some len ->
  - 2 ^ 63 <= len <= 0 -> np_alloc 0%nat = None ->
  synthesize_signal freq width amp sr duration w = (Ok ([], []), w).
Proof.
  intros Hstep Hd Hlen Hrange Halloc.
  assert (Ht : np_arange (of_Z 0) d step = Ok []).
  { unfold np_arange. rewrite Hlen.
    destruct (Z.ltb_spec len (- 2 ^ 63)); [lia|].
    destruct (Z.ltb_spec (2 ^ 63) len); [lia|].
    cbn [orb]. cbn zeta.
    assert (Hz : Z.to_nat (npy_intp len) = 0%nat).
    { unfold npy_intp. destruct (Z.eqb_spec len (2 ^ 63)); lia. }
    rewrite Hz, Halloc. reflexivity. }
  destruct (synthesize_signal_run freq width amp sr duration w step d [] Hstep Hd Ht)
    as (z & w' & Hz & _ & _ & Hrun).
  cbn [length randn] in Hz. injection Hz as <- <-.
  rewrite Hrun. reflexivity.
Qed.

End Records.

(** *** The default instrument, in binary64 *)

Section Defaults.
Context {G : Type} `{!Host B64.float G}.


End Defaults.

(** ** Further properties on the example files *)

Module MoreExamples.
Import Demo.

(** A frequency beyond the doubles, an infinite sampling rate and an
    infinite duration are refused. *)
Example huge_frequency_overflows :
  main (args_of "huge.ndjson" "instrument_spec.am") world0
    = (Raise OverflowError, world0).
Proof. vm_compute. reflexivity. Qed.

Example infinite_rate_overflows :
  main (args_of "s1.ndjson" "infinite_rate.am") world0
    = (Raise OverflowError, world0).
Proof. vm_compute. reflexivity. Qed.

(** The numbers 2^53 + 1 and 2^53 differ although they have one double;
    a NaN equals itself as the element of a record. *)
Example int_float_compared_exactly :
  py_eqb (PyInt 9007199254740993 : pyval float) (PyFloat (of_Z 9007199254740992)) = false /\
  py_eqb (PyInt 9007199254740992 : pyval float) (PyFloat (of_Z 9007199254740992)) = true /\
  py_eqb (PyDict [("frequency", PyFloat PrimFloat.nan)] : pyval float)
         (PyDict [("frequency", PyFloat PrimFloat.nan)]) = true.
Proof. repeat split; vm_compute; reflexivity. Qed.


Lemma main_touches_only_outputs_witness :
  "signatures.am" <> output_ndjson args_s1 /\
  "signatures.am" <> output_meta args_s1 /\
  files (snd (main args_s1 world0)) !! "signatures.am" = files world0 !! "signatures.am" /\
  writable (snd (main args_s1 world0)) = writable world0.
Proof.
  split; [discriminate|]. split; [discriminate|].
  apply (main_touches_only_outputs args_s1 world0 "signatures.am"); discriminate.
Defined.

Lemma main_success_effects_witness :
  exists (out_nd : list (pyval float)) inst sr,
    files (snd (main args_s1 world0)) !! output_meta args_s1
      = Some (summary_text inst sr (length out_nd)) /\
    (output_ndjson args_s1 <> output_meta args_s1 ->
     files (snd (main args_s1 world0)) !! output_ndjson args_s1
       = Some (ndjson_text out_nd)) /\
    (output_ndjson args_s1 = output_meta args_s1 ->
     files (snd (main args_s1 world0)) !! output_ndjson args_s1
       = Some (summary_text inst sr (length out_nd))) /\
    stdout (snd (main args_s1 world0)) =
      (stdout world0 ++
       ["Wrote " +:+ str_of_Z (Z.of_nat (length out_nd))
        +:+ " mock signals to " +:+ output_ndjson args_s1;
        "Wrote summary to " +:+ output_meta args_s1])%list.
Proof.
  apply (main_success_effects args_s1 world0 (snd (main args_s1 world0))).
  vm_compute. reflexivity.
Defined.

Lemma main_requires_inputs_witness :
  main (Args "s1.ndjson" "nowhere.am" "instrument_spec.am" "o.ndjson" "o.am") world0
    = (Raise IOError, world0) /\
  main (Args "s1.ndjson" "signatures.am" "nowhere.am" "o.ndjson" "o.am") world0
    = (Raise IOError, world0) /\
  main (Args "s1.ndjson" "latin1.am" "instrument_spec.am" "o.ndjson" "o.am") world0
    = (Raise UnicodeDecodeError, world0).
Proof.
  split; [|split].
  - apply (main_requires_inputs
             (Args "s1.ndjson" "nowhere.am" "instrument_spec.am" "o.ndjson" "o.am")
             world0 s1_text s1); vm_compute; reflexivity.
  - apply (main_requires_inputs
             (Args "s1.ndjson" "signatures.am" "nowhere.am" "o.ndjson" "o.am")
             world0 s1_text s1) with (text' := meta_text); vm_compute; reflexivity.
  - apply (main_requires_inputs
             (Args "s1.ndjson" "latin1.am" "instrument_spec.am" "o.ndjson" "o.am")
             world0 s1_text s1) with (text' := "Name: caf" +:+ String "233" LF);
      vm_compute; reflexivity.
Defined.


Lemma main_invalid_signature_witness :
  exists e w',
    main (args_of "mixed.ndjson" "instrument_spec.am") world0 = (Raise e, w') /\
    (e = AttributeError \/ e = TypeError \/ e = ValueError \/ e = OverflowError) /\
    files w' = files world0 /\ stdout w' = stdout world0.
Proof.
  apply (main_invalid_signature
           (args_of "mixed.ndjson" "instrument_spec.am") world0
           mixed_text meta_text spec_text mixed 4 (inl 1) (lit (1 # 8)%Q)
           axis4);
    [vm_compute; reflexivity | vm_compute; reflexivity | vm_compute; reflexivity
    |vm_compute; reflexivity | vm_compute; reflexivity | vm_compute; reflexivity
    |vm_compute; reflexivity | vm_compute; reflexivity | vm_compute; reflexivity
    |vm_compute; reflexivity | exact Examples.axis4_built |].
  right. left. reflexivity.
Defined.


Lemma main_bad_sampling_rate_witness :
  main (args_of "twins.ndjson" "bad_rate.am") world0 = (Raise ValueError, world0) /\
  main (args_of "twins.ndjson" "infinite_rate.am") world0 = (Raise OverflowError, world0).
Proof.
  split.
  - apply (main_bad_sampling_rate (args_of "twins.ndjson" "bad_rate.am") world0
             twins_text meta_text ("SamplingRate: fast" +:+ LF) twins ValueError);
      vm_compute; reflexivity.
  - apply (main_bad_sampling_rate (args_of "twins.ndjson" "infinite_rate.am") world0
             twins_text meta_text ("SamplingRate: 1e999" +:+ LF) twins OverflowError);
      vm_compute; reflexivity.
Defined.


(** The two different records form a valid run. *)
Lemma pair_valid :
  valid_run (args_of "pair.ndjson" "instrument_spec.am") world0
    pair (parse_text meta_text) (parse_text spec_text) 4 (inl 1) axis4.
Proof.
  constructor.
  - exists pair_text. repeat split; vm_compute; reflexivity.
  - exists meta_text. repeat split; vm_compute; reflexivity.
  - exists spec_text. repeat split; vm_compute; reflexivity.
  - vm_compute. reflexivity.
  - vm_compute. reflexivity.
  - eexists. vm_compute. reflexivity.
  - exact Examples.axis4_built.
  - repeat constructor.
  - reflexivity.
  - reflexivity.
  - Examples.run_rows.
  - vm_compute. reflexivity.
  - vm_compute. reflexivity.
  - vm_compute. reflexivity.
  - vm_compute. reflexivity.
Defined.

Lemma pair_distinct (i j : nat) (x y : pyval float) :
  (i < j)%nat -> pair !! i = Some x -> pair !! j = Some y -> py_eqb x y = false.
Proof.
  intros Hlt Hi Hj.
  destruct i as [|[|i]]; destruct j as [|[|j]]; simpl in Hi, Hj;
    try discriminate; try lia.
  injection Hi as <-. injection Hj as <-. reflexivity.
Defined.


Lemma generated_label_first_equal_witness :
  generated_label twins (parse_text meta_text) 1 (PyDict [("frequency", PyInt 5)])
    = "Foo" +:+ "_" +:+ "1" /\
  (list_index twins 1 (PyDict [("frequency", PyInt 5)]) + 1 <= 1 + 1)%nat.
Proof.
  exact (generated_label_first_equal twins (parse_text meta_text) 1 0
           (PyDict [("frequency", PyInt 5)]) (PyDict [("frequency", PyInt 5)])
           ltac:(lia) eq_refl eq_refl ltac:(intros j' y' Hlt; lia)).
Defined.

Lemma synthesize_signal_empty_witness :
  synthesize_signal (lit 10%Q) (lit (1 # 10)%Q) (lit 2%Q) 4 (inr (lit (-1)%Q)) world0
    = (Ok ([], []), world0).
Proof.
  apply (synthesize_signal_empty (lit 10%Q) (lit (1 # 10)%Q) (lit 2%Q) 4
           (inr (lit (-1)%Q)) world0 (lit (1 # 4)%Q) (lit (-1)%Q) (-4));
    first [lia | vm_compute; reflexivity].
Defined.

Lemma parse_line_ignores_blanks_witness :
  parse_line (F:=float) (G:=nat) []
    ((NBSP +:+ "Sampling Rate" +:+ String "009" EmptyString) +:+ ":"
     +:+ ("  " +:+ "4096" +:+ (NEL +:+ String "013" EmptyString +:+ LF)))
  = dict_set "Sampling Rate" (PyInt 4096) [].
Proof.
  exact (parse_line_ignores_blanks (F:=float) (G:=nat) []
           NBSP (String "009" EmptyString) "  "
           (NEL +:+ String "013" EmptyString +:+ LF)
           "Sampling Rate" "4096"
           eq_refl eq_refl eq_refl eq_refl eq_refl eq_refl eq_refl eq_refl eq_refl).
Defined.

(** The labelled record with an instrument file that names no sampling
    rate and no duration. *)
Lemma plain_valid :
  valid_run (args_of "s1.ndjson" "plain.am") world0 s1
    (parse_text meta_text) (parse_text ("InstrumentType: LIGO" +:+ LF)) 4096
    (inr (lit 1%Q)) axis4096.
Proof.
  constructor.
  - exists s1_text. repeat split; vm_compute; reflexivity.
  - exists meta_text. repeat split; vm_compute; reflexivity.
  - exists ("InstrumentType: LIGO" +:+ LF). repeat split; vm_compute; reflexivity.
  - vm_compute. reflexivity.
  - vm_compute. reflexivity.
  - eexists. vm_compute. reflexivity.
  - exists (fdiv (lit 1%Q) (of_Z 4096)), (lit 1%Q).
    repeat split; vm_compute; reflexivity.
  - repeat constructor.
  - reflexivity.
  - reflexivity.
  - Examples.run_rows.
  - vm_compute. reflexivity.
  - vm_compute. reflexivity.
  - vm_compute. reflexivity.
  - vm_compute. reflexivity.
Defined.


End MoreExamples.
